(** * OpenMM: the Monte Carlo membrane barostat and the Reference Drude
      kernel factory

    A shallow embedding of

    - [MonteCarloMembraneBarostatImpl] ([initialize],
      [updateContextState], [getDefaultParameters], [getKernelNames]);
    - [ReferenceDrudeKernelFactory] ([initDrudeReferenceKernels],
      [createKernelImpl]).

    Conventions of the embedding.

    - A C++ [double] is an exact rational in lowest terms ([Qc]): the
      rounding of doubles, infinities and NaN are not modelled, and the
      zero of [Qc] stands for [+0.0].  Two doubles are equal ([=])
      exactly when they have the same value.
    - A quotient whose divisor is 0 is 0 in [Qc]; in the code it is an
      infinity or a NaN.  The quotient [-w/kT] of the acceptance test is
      modelled at [kT = 0] as the code has it; the properties that rest
      on another quotient assume its divisor is not 0.
    - A C++ [float] is the binary32 number it is: the four constants of
      type [const float] are rounded as the compiler rounds them.
    - Where the rounding of doubles decides, the proposal of a move is
      also given in binary64, on the primitive floats ([Binary64]).
    - A C++ [int] is an unbounded [Z]; signed overflow is undefined
      behaviour in C++ and is outside the model.
    - [sqrt], [exp] and [log] come from <cmath>; they are parameters of
      the development, as is the potential energy of a context.
    - The SFMT generator is an infinite sequence of variates together with
      the position of the next one.
    - The platform kernel is opaque: the context records the calls it
      received. *)

From Stdlib Require Import ZArith QArith Qcanon Qround Lia Lqa List String Bool.
From Stdlib Require Floats.PrimFloat.
Import ListNotations.

Local Open Scope Qc_scope.

(* ------------------------------------------------------------------ *)
(** ** Comparisons on doubles *)

(** A literal of type [double], written as a decimal. *)
Definition dbl (q : Q) : Qc := Q2Qc q.

(** The conversion of an [int] to [double]. *)
Definition of_int (z : Z) : Qc := Q2Qc (inject_Z z).

(** [x < y] as the code's boolean test. *)
Definition Qltb (x y : Qc) : bool :=
  match x ?= y with Lt => true | _ => false end.

(** [x == y] *)
Definition Qeqb (x y : Qc) : bool :=
  match x ?= y with Eq => true | _ => false end.

(** [std::min(a, b)]: [b] when [b < a], otherwise [a]. *)
Definition std_min (a b : Qc) : Qc := if Qltb b a then b else a.

(** Goals on [Qc] restated on [Q], where [lra] and [nra] work. *)
Ltac qc2q :=
  unfold dbl, of_int, Qclt, Qcle, Qcdiv, Qcminus, Qcplus, Qcmult, Qcinv,
    Qcopp in *;
  cbn [this Q2Qc] in *;
  repeat match goal with
    | H : context [Qred ?q] |- _ => rewrite (Qred_correct q) in H
    | |- context [Qred ?q] => rewrite (Qred_correct q)
    end.

(* ------------------------------------------------------------------ *)
(** ** Arrays of three elements indexed by an axis *)

(** The value of the local [int axis]; the code only ever assigns 0, 1
    or 2 to it. *)
Inductive Axis : Type := Axis0 | Axis1 | Axis2.

Definition Axis_eqb (a b : Axis) : bool :=
  match a, b with
  | Axis0, Axis0 | Axis1, Axis1 | Axis2, Axis2 => true
  | _, _ => false
  end.

(** [T x[3]]. *)
Record Arr3 (T : Type) : Type := mkArr3 { el0 : T; el1 : T; el2 : T }.
Arguments mkArr3 {T} _ _ _.
Arguments el0 {T} _.
Arguments el1 {T} _.
Arguments el2 {T} _.

(** [x[a]] *)
Definition get {T} (x : Arr3 T) (a : Axis) : T :=
  match a with Axis0 => el0 x | Axis1 => el1 x | Axis2 => el2 x end.

(** [x[a] = v] *)
Definition put {T} (x : Arr3 T) (a : Axis) (v : T) : Arr3 T :=
  match a with
  | Axis0 => mkArr3 v (el1 x) (el2 x)
  | Axis1 => mkArr3 (el0 x) v (el2 x)
  | Axis2 => mkArr3 (el0 x) (el1 x) v
  end.

(** [Vec3]: three doubles. *)
Definition Vec3 : Type := Arr3 Qc.

(** [v*s] for a [Vec3] and a double. *)
Definition Vec3_scale (v : Vec3) (s : Qc) : Vec3 :=
  mkArr3 (el0 v * s) (el1 v * s) (el2 v * s).

(* ------------------------------------------------------------------ *)
(** ** The random generator *)

(** The state of the generator: the sequence it produces and the
    position of the next variate. *)
Record Rng : Type := mkRng { draws : nat -> Qc; pos : nat }.

(** [genrand_real2(random)]: the next variate, and the advanced state. *)
Definition genrand_real2 (r : Rng) : Qc * Rng :=
  (draws r (pos r), mkRng (draws r) (S (pos r))).

(* ------------------------------------------------------------------ *)
(** ** The barostat's configuration, its state and the context *)

Inductive XYMode : Type := XYIsotropic | XYAnisotropic.
Inductive ZMode : Type := ZFree | ZFixed | ConstantVolume.

Definition XYMode_eqb (a b : XYMode) : bool :=
  match a, b with
  | XYIsotropic, XYIsotropic | XYAnisotropic, XYAnisotropic => true
  | _, _ => false
  end.

Definition ZMode_eqb (a b : ZMode) : bool :=
  match a, b with
  | ZFree, ZFree | ZFixed, ZFixed | ConstantVolume, ConstantVolume => true
  | _, _ => false
  end.

(** The owner, [MonteCarloMembraneBarostat], through its getters. *)
Record Owner : Type := mkOwner {
  getFrequency : Z;
  getTemperature : Qc;
  getXYMode : XYMode;
  getZMode : ZMode;
  getRandomNumberSeed : Z
}.

(** A call received by the [ApplyMonteCarloBarostatKernel]. *)
Inductive KernelCall : Type :=
| KInitialize
| KScaleCoordinates (sx sy sz : Qc)
| KRestoreCoordinates.

(** What the barostat sees of a [ContextImpl]: the periodic box vectors,
    the two context parameters it reads, the number of molecules, and
    the calls the kernel has received (latest first). *)
Record Context : Type := mkContext {
  boxVectors : Arr3 Vec3;
  paramPressure : Qc;
  paramSurfaceTension : Qc;
  numMolecules : nat;
  kernelCalls : list KernelCall
}.

(** [context.getOwner().setPeriodicBoxVectors(a, b, c)] *)
Definition setPeriodicBoxVectors (ctx : Context) (b : Arr3 Vec3) : Context :=
  mkContext b (paramPressure ctx) (paramSurfaceTension ctx)
            (numMolecules ctx) (kernelCalls ctx).

(** A call on the kernel. *)
Definition callKernel (ctx : Context) (c : KernelCall) : Context :=
  mkContext (boxVectors ctx) (paramPressure ctx) (paramSurfaceTension ctx)
            (numMolecules ctx) (c :: kernelCalls ctx).

(** [box[0][0]*box[1][1]*box[2][2]] *)
Definition boxVolume (box : Arr3 Vec3) : Qc :=
  el0 (el0 box) * el1 (el1 box) * el2 (el2 box).

(** The members of [MonteCarloMembraneBarostatImpl]. *)
Record BarostatState : Type := mkState {
  step : Z;
  volumeScale : Arr3 Qc;
  numAttempted : Arr3 Z;
  numAccepted : Arr3 Z;
  random : Rng
}.

(** State updates, one member at a time. *)
Definition with_step (st : BarostatState) (s : Z) : BarostatState :=
  mkState s (volumeScale st) (numAttempted st) (numAccepted st) (random st).
Definition with_volumeScale (st : BarostatState) (v : Arr3 Qc)
  : BarostatState :=
  mkState (step st) v (numAttempted st) (numAccepted st) (random st).
Definition with_numAttempted (st : BarostatState) (n : Arr3 Z)
  : BarostatState :=
  mkState (step st) (volumeScale st) n (numAccepted st) (random st).
Definition with_numAccepted (st : BarostatState) (n : Arr3 Z) : BarostatState :=
  mkState (step st) (volumeScale st) (numAttempted st) n (random st).
Definition with_random (st : BarostatState) (r : Rng) : BarostatState :=
  mkState (step st) (volumeScale st) (numAttempted st) (numAccepted st) r.

(* ------------------------------------------------------------------ *)
(** ** Constants *)

(** The [float] nearest to a positive number in the normal range of
    binary32, ties to even: [m * 2^e] with [m] the integer nearest to
    [x / 2^e], where [e] is such that [x / 2^e] lies between [2^23] and
    [2^24] (a mantissa of 24 bits).  This is the value that a [float]
    literal has, and the value that the product or the quotient of two
    [float]s has when [x] is their exact product or quotient. *)
Definition to_float (x : Qc) : Qc :=
  let q := this x in
  match Qnum q with
  | Zpos n =>
      let e0 := (Z.log2 (Zpos n) - Z.log2 (Zpos (Qden q)) - 23)%Z in
      let e := if Qle_bool (2 ^ 23 * 2 ^ e0) q then e0 else (e0 - 1)%Z in
      let s := (q / 2 ^ e)%Q in
      let m := Qfloor s in
      let m := match (s - inject_Z m ?= 1 # 2)%Q with
               | Lt => m
               | Eq => if Z.even m then m else (m + 1)%Z
               | Gt => (m + 1)%Z
               end in
      Q2Qc (inject_Z m * 2 ^ e)
  | _ => x
  end.

Definition BOLTZMANN : Qc := to_float (dbl 1.380658e-23).
Definition AVOGADRO : Qc := to_float (dbl 6.0221367e23).
Definition RGAS : Qc := to_float (BOLTZMANN * AVOGADRO).
Definition BOLTZ : Qc := to_float (RGAS / dbl 1000).

(* ------------------------------------------------------------------ *)
(** ** ReferenceDrudeKernelFactory *)

(** What [throw OpenMMException(msg)] carries. *)
Inductive OpenMMException : Type := mkOpenMMException (what : string).

(** A call either returns or throws. *)
Inductive Result (A : Type) : Type :=
| Returns (a : A)
| Throws (e : OpenMMException).
Arguments Returns {A} _.
Arguments Throws {A} _.

(** A [KernelFactory*]: the factory this file defines, or another
    factory that a platform holds, known by its address. *)
Inductive KernelFactory : Type :=
| ReferenceDrudeKernelFactory
| OtherKernelFactory (address : N).

(** A [Platform]: its name and its table of kernel factories, a
    [std::map] from kernel names, kept here as an association list in
    which the first entry for a name is the one in force. *)
Record Platform : Type := mkPlatform {
  platformName : string;
  kernelFactories : list (string * KernelFactory)
}.

(** Modelled from the spec: [Platform::registerKernelFactory], whose
    source is Platform.cpp; it "stores (or overwrites) the factory for
    that (platform, name) pair". *)
Definition registerKernelFactory (p : Platform) (name : string)
           (f : KernelFactory) : Platform :=
  mkPlatform (platformName p)
    ((name, f)
       :: filter (fun e => negb (String.eqb (fst e) name)) (kernelFactories p)).

(** The factory registered for a kernel name, if any. *)
Fixpoint lookupFactory (l : list (string * KernelFactory)) (name : string)
  : option KernelFactory :=
  match l with
  | [] => None
  | (n, f) :: l' => if String.eqb n name then Some f else lookupFactory l' name
  end.

Section Drude.

(** [CalcDrudeForceKernel::Name()] and
    [IntegrateDrudeLangevinStepKernel::Name()], declared in
    DrudeKernels.h. *)
Variables CalcDrudeForceKernel_Name IntegrateDrudeLangevinStepKernel_Name
  : string.

(** [ReferencePlatform::PlatformData], and a [ContextImpl] as far as the
    factory looks at it. *)
Variable PlatformData : Type.
Record ContextImpl : Type := mkContextImpl { getPlatformData : PlatformData }.

(** The kernels the factory constructs, with the arguments of their
    constructors. *)
Inductive KernelImpl : Type :=
| ReferenceCalcDrudeForceKernel (name : string) (platform : Platform)
| ReferenceIntegrateDrudeLangevinStepKernel
    (name : string) (platform : Platform) (data : PlatformData).

(** [KernelImpl::getName()] *)
Definition getName (k : KernelImpl) : string :=
  match k with
  | ReferenceCalcDrudeForceKernel n _ => n
  | ReferenceIntegrateDrudeLangevinStepKernel n _ _ => n
  end.

(** The entries of a table of factories under other names than the two
    above, in the order of the table. *)
Definition otherFactories (l : list (string * KernelFactory))
  : list (string * KernelFactory) :=
  filter (fun e => negb (String.eqb (fst e) CalcDrudeForceKernel_Name)
                   && negb (String.eqb (fst e)
                              IntegrateDrudeLangevinStepKernel_Name)) l.

(** [initDrudeReferenceKernels], on the platform that
    [Platform::getPlatformByName("Reference")] returns. *)
Definition initDrudeReferenceKernels (platform : Platform) : Platform :=
  let factory := ReferenceDrudeKernelFactory in
  let platform :=
    registerKernelFactory platform CalcDrudeForceKernel_Name factory in
  registerKernelFactory platform IntegrateDrudeLangevinStepKernel_Name factory.

(** [ReferenceDrudeKernelFactory::createKernelImpl] *)
Definition createKernelImpl (name : string) (platform : Platform)
           (context : ContextImpl) : Result KernelImpl :=
  let data := getPlatformData context in
  if String.eqb name CalcDrudeForceKernel_Name then
    Returns (ReferenceCalcDrudeForceKernel name platform)
  else if String.eqb name IntegrateDrudeLangevinStepKernel_Name then
    Returns (ReferenceIntegrateDrudeLangevinStepKernel name platform data)
  else
    Throws (mkOpenMMException
              ("Tried to create kernel with illegal kernel name '"
                 ++ name ++ "'")).

End Drude.

(* ------------------------------------------------------------------ *)
(** ** The default parameters and the kernel names of the barostat *)

(** A [std::map<std::string, double>], as an association list in which
    the first entry for a name is the one in force. *)
Definition ParameterMap : Type := list (string * Qc).

(** [parameters[name] = value]: the entry of [name] is created, or
    overwritten when there is one. *)
Definition setParameter (m : ParameterMap) (name : string) (value : Qc)
  : ParameterMap :=
  (name, value) :: filter (fun e => negb (String.eqb (fst e) name)) m.

(** [parameters.find(name)] *)
Fixpoint findParameter (m : ParameterMap) (name : string) : option Qc :=
  match m with
  | [] => None
  | (n, v) :: m' => if String.eqb n name then Some v else findParameter m' name
  end.

Section DefaultParameters.

(** [MonteCarloMembraneBarostat::Pressure()] and
    [MonteCarloMembraneBarostat::SurfaceTension()], the names of the two
    context parameters, and [ApplyMonteCarloBarostatKernel::Name()]. *)
Variables Pressure SurfaceTension ApplyMonteCarloBarostatKernel_Name : string.

(** [getDefaultPressure()] and [getDefaultSurfaceTension()] of the
    owner. *)
Variables getDefaultPressure getDefaultSurfaceTension : Owner -> Qc.

(** [MonteCarloMembraneBarostatImpl::getDefaultParameters] *)
Definition getDefaultParameters (owner : Owner) : ParameterMap :=
  let parameters := [] in
  let parameters :=
    setParameter parameters Pressure (getDefaultPressure owner) in
  setParameter parameters SurfaceTension (getDefaultSurfaceTension owner).

(** [MonteCarloMembraneBarostatImpl::getKernelNames] *)
Definition getKernelNames : list string :=
  let names := [] in
  names ++ [ApplyMonteCarloBarostatKernel_Name].

End DefaultParameters.

(* ------------------------------------------------------------------ *)
(** ** Data for the examples

    Rational functions in the place of <cmath>, deterministic generators
    and energy functions, on which the definitions below can be run. *)

(** [1/(1-x)] below zero and [1+x] above: positive, increasing, and 1
    at 0, as [exp] is. *)
Definition exp_approx (x : Qc) : Qc :=
  if Qltb x 0 then 1 / (1 - x) else 1 + x.

(** [x-1] on the positive numbers, which is 0 at 1 and negative below 1
    as [log] is; a large negative number elsewhere, where [log] is
    minus infinity. *)
Definition log_approx (x : Qc) : Qc :=
  if Qltb 0 x then x - 1 else - dbl 1000.

(** [(x+1)/2]: positive on the positive numbers and 1 at 1, as [sqrt]
    is. *)
Definition sqrt_approx (x : Qc) : Qc := (x + 1) / dbl 2.

(** An energy that never changes. *)
Definition energy_flat (c : Context) : Qc := 0.

(** An energy that every scaling of the coordinates raises by one unit,
    and every restoration lowers by one. *)
Fixpoint energy_of_calls (l : list KernelCall) : Qc :=
  match l with
  | [] => 0
  | KScaleCoordinates _ _ _ :: l' => energy_of_calls l' + 1
  | KRestoreCoordinates :: l' => energy_of_calls l' - 1
  | KInitialize :: l' => energy_of_calls l'
  end.
Definition energy_rising (c : Context) : Qc := energy_of_calls (kernelCalls c).

(** A cubic box of edge 1; a context with one molecule, no pressure and
    no surface tension. *)
Definition unitBox : Arr3 Vec3 :=
  mkArr3 (mkArr3 1 0 0) (mkArr3 0 1 0) (mkArr3 0 0 1).
Definition unitContext : Context := mkContext unitBox 0 0 1 [].

(** A generator that repeats one variate. *)
Definition constant_gen (u : Qc) (seed : Z) (n : nat) : Qc := u.

(** A generator that reads its variates from a list, then repeats [u]. *)
Definition list_gen (l : list Qc) (u : Qc) (seed : Z) (n : nat) : Qc :=
  nth n l u.

(** Barostats at 300 K that run a trial at every call, and one that
    never does. *)
Definition owner_free : Owner :=
  mkOwner 1 (dbl 300) XYAnisotropic ZFree 1.
Definition owner_fixed : Owner :=
  mkOwner 1 (dbl 300) XYAnisotropic ZFixed 1.
Definition owner_constant_volume : Owner :=
  mkOwner 1 (dbl 300) XYIsotropic ConstantVolume 1.
Definition owner_off : Owner :=
  mkOwner 0 (dbl 300) XYAnisotropic ZFree 1.

(** A barostat that runs a trial at every third call, and barostats
    with the two lateral axes coupled. *)
Definition owner_every_third : Owner :=
  mkOwner 3 (dbl 300) XYAnisotropic ZFree 1.
Definition owner_isotropic_free : Owner :=
  mkOwner 1 (dbl 300) XYIsotropic ZFree 1.
Definition owner_unseeded : Owner :=
  mkOwner 1 (dbl 300) XYAnisotropic ZFree 0.

(** A barostat at constant volume whose lateral axes are independent. *)
Definition owner_anisotropic_constant_volume : Owner :=
  mkOwner 1 (dbl 300) XYAnisotropic ConstantVolume 1.

(** A box of edges 2, 3 and 5, in a context with four molecules. *)
Definition slabBox : Arr3 Vec3 :=
  mkArr3 (mkArr3 (dbl 2) 0 0) (mkArr3 0 (dbl 3) 0) (mkArr3 0 0 (dbl 5)).
Definition slabContext : Context := mkContext slabBox 1 (dbl 2) 4 [].

(** Thirteen trials on axis 0 that leave the volume as it is (variates
    0 for the axis and 1/2 for the move), of which the first three are
    accepted (test variate 0) and the next ten rejected (test variate
    0.9), on an energy that rises at each move: [w] is 1 in each of
    them, and [exp(-1/kT)] is about 0.67 at 300 K. *)
Definition accept_move : list Qc := [0; dbl 0.5; 0].
Definition reject_move : list Qc := [0; dbl 0.5; dbl 0.9].
Definition thirteen_trials : list Qc :=
  accept_move ++ accept_move ++ accept_move
  ++ reject_move ++ reject_move ++ reject_move ++ reject_move ++ reject_move
  ++ reject_move ++ reject_move ++ reject_move ++ reject_move ++ reject_move.

(** A box of edges 1, 100 and 1, in a context with one molecule, no
    pressure and no surface tension.  Its volume is 100, so that
    [initialize] gives every axis the amplitude 1: [0.01*100] is 1 in
    doubles as it is here. *)
Definition tallBox : Arr3 Vec3 :=
  mkArr3 (mkArr3 1 0 0) (mkArr3 0 (dbl 100) 0) (mkArr3 0 0 1).
Definition tallContext : Context := mkContext tallBox 0 0 1 [].

(** 142 trials on a flat energy, with the normal axis fixed.

    - Nine trials on axis 0 that leave the volume as it is (variates 0
      for the axis and 1/2 for the move): [w] is 0, they are accepted
      and draw no third variate.
    - 132 trials on axis 1 (variate 1/2 for the axis), each proposing
      the largest step down (variate 0 for the move), in 33 groups of
      four: the first of a group is rejected (test variate 255/256) and
      the next three are accepted (test variate 0).  The 99 accepted
      ones take the second edge from 100 to 1; the acceptance ratio of
      axis 1 stays between 25% and 75%, so that its amplitude stays 1.
    - A last trial on axis 0, its tenth, whose move and test variates
      are [move] and [test].

    Every number that the state holds in the first 141 trials is a
    small integer: doubles compute them as they are computed here (the
    quotient [(b-1)/b] is rounded, but its product by [b] is [b-1]
    again, see [Binary64]).  Each decision is the one that [exp] and
    [log] themselves give: [log 1] is 0; a test variate of 0 passes
    whatever [exp] returns; a step from [b] down to [b-1] has
    [exp(-w/kT)] equal to [(b-1)/b], at most 0.99, below 255/256; and
    at an attempted volume of 0 the weight is as large as [-log 0]. *)
Definition shrink_script (move test : Qc) (seed : Z) (n : nat) : Qc :=
  if (n <? 18)%nat then (if Nat.even n then 0 else dbl 0.5)
  else if (n <? 414)%nat then
    match ((n - 18) mod 3)%nat with
    | O => dbl 0.5
    | 1%nat => 0
    | _ => if (((n - 18) / 3) mod 4 =? 0)%nat then dbl (255 # 256) else 0
    end
  else match (n - 414)%nat with
       | O => 0
       | 1%nat => move
       | _ => test
       end.

(* ------------------------------------------------------------------ *)
(** ** The proposal of a move in binary64

    The computation of [propose], [scaledBox] and [boxVolume] below, on
    the doubles of the machine: each operation is rounded to the nearest
    double, and [sqrt] is the correctly rounded square root. *)

Module Binary64.

Import PrimFloat.
#[local] Set Warnings "-inexact-float".
Local Open Scope float_scope.

Definition Vec3 : Type := Arr3 float.

(** [v*s] for a [Vec3] and a double. *)
Definition Vec3_scale (v : Vec3) (s : float) : Vec3 :=
  mkArr3 (el0 v * s) (el1 v * s) (el2 v * s).

(** [box[0][0]*box[1][1]*box[2][2]] *)
Definition boxVolume (box : Arr3 Vec3) : float :=
  el0 (el0 box) * el1 (el1 box) * el2 (el2 box).

Record Proposal : Type := mkProposal {
  deltaVolume : float;
  newVolume : float;
  lengthScale : Arr3 float;
  deltaArea : float
}.

Definition propose (owner : Owner) (box : Arr3 Vec3) (scale : float)
           (axis : Axis) (u : float) : Proposal :=
  let volume := boxVolume box in
  let deltaVolume := scale * 2 * (u - 0.5) in
  let newVolume := volume + deltaVolume in
  let lengthScale := mkArr3 1.0 1.0 1.0 in
  let lengthScale :=
    if (Axis_eqb axis Axis0 || Axis_eqb axis Axis1)
       && XYMode_eqb (getXYMode owner) XYIsotropic
    then let s := sqrt (newVolume / volume) in
         put (put lengthScale Axis1 s) Axis0 s
    else put lengthScale axis (newVolume / volume) in
  let '(lengthScale, newVolume, deltaVolume) :=
    if ZMode_eqb (getZMode owner) ConstantVolume
    then (put lengthScale Axis2
              (1.0 / (get lengthScale Axis0 * get lengthScale Axis1)),
          volume, 0)
    else (lengthScale, newVolume, deltaVolume) in
  let deltaArea :=
    el0 (el0 box) * get lengthScale Axis0
    * el1 (el1 box) * get lengthScale Axis1
    - el0 (el0 box) * el1 (el1 box) in
  mkProposal deltaVolume newVolume lengthScale deltaArea.

(** [box[0]*lengthScale[0], box[1]*lengthScale[1], box[2]*lengthScale[2]] *)
Definition scaledBox (box : Arr3 Vec3) (s : Arr3 float) : Arr3 Vec3 :=
  mkArr3 (Vec3_scale (el0 box) (el0 s))
         (Vec3_scale (el1 box) (el1 s))
         (Vec3_scale (el2 box) (el2 s)).

(** The rectangular box of edges [a], [b] and [c]. *)
Definition rectangularBox (a b c : float) : Arr3 Vec3 :=
  mkArr3 (mkArr3 a 0 0) (mkArr3 0 b 0) (mkArr3 0 0 c).

(** Whether [n] moves in a row on axis 1, each with the amplitude 1 and
    the variate 0, take the box of edges 1, [b] and 1 to the boxes of
    edges 1, [b-1], ..., [b-n] and 1, with these very doubles. *)
Fixpoint stepsDown (owner : Owner) (n : nat) (b : float) : bool :=
  match n with
  | O => true
  | S n' =>
      let p := propose owner (rectangularBox 1 b 1) 1 Axis1 0 in
      let box := scaledBox (rectangularBox 1 b 1) (lengthScale p) in
      (newVolume p =? b - 1)
      && (el0 (el0 box) =? 1) && (el1 (el1 box) =? b - 1)
      && (el2 (el2 box) =? 1)
      && stepsDown owner n' (b - 1)
  end.

End Binary64.

(* ------------------------------------------------------------------ *)
(** ** MonteCarloMembraneBarostatImpl *)

Section Barostat.

(** <cmath> *)
Variables sqrt exp log : Qc -> Qc.

(** [context.getOwner().getState(State::Energy).getPotentialEnergy()] *)
Variable potentialEnergy : Context -> Qc.

(** [init_gen_rand(seed, random)]: the sequence a seed produces; and
    the seed [osrngseed()] returns. *)
Variable init_gen_rand : Z -> nat -> Qc.
Variable osrngseed : Z.

(** The barostat this implementation belongs to. *)
Variable owner : Owner.

(** *** initialize

    On a freshly constructed object: the constructor has set [step] to
    0, and [initialize] sets every other member.  The platform is taken
    to supply the kernel: [createKernel] does not throw. *)
Definition initialize (ctx : Context) : BarostatState * Context :=
  let ctx := callKernel ctx KInitialize in
  let box := boxVectors ctx in
  let volume := boxVolume box in
  let randSeed := getRandomNumberSeed owner in
  let randSeed := if (randSeed =? 0)%Z then osrngseed else randSeed in
  (mkState 0
           (mkArr3 (dbl 0.01 * volume) (dbl 0.01 * volume) (dbl 0.01 * volume))
           (mkArr3 0%Z 0%Z 0%Z)
           (mkArr3 0%Z 0%Z 0%Z)
           (mkRng (init_gen_rand randSeed) 0),
   ctx).

(** *** The axis-selection loop

    [while (true)] becomes a recursion on [fuel], the number of
    iterations allowed; [None] means the loop has not exited within
    them. *)
Fixpoint chooseAxis (fuel : nat) (r : Rng) : option (Axis * Rng) :=
  match fuel with
  | O => None
  | S fuel' =>
      let (u, r') := genrand_real2 r in
      let rnd := u * dbl 3.0 in
      if Qltb rnd (dbl 1.0) then Some (Axis0, r')
      else if Qltb rnd (dbl 2.0) then
        Some (if XYMode_eqb (getXYMode owner) XYIsotropic
              then Axis0 else Axis1, r')
      else if ZMode_eqb (getZMode owner) ZFree then Some (Axis2, r')
      else chooseAxis fuel' r'
  end.

(** *** The proposed move

    The locals [deltaVolume], [newVolume], [lengthScale] and [deltaArea]
    as they stand when the kernel is called, that is after the
    [ConstantVolume] override. *)
Record Proposal : Type := mkProposal {
  deltaVolume : Qc;
  newVolume : Qc;
  lengthScale : Arr3 Qc;
  deltaArea : Qc
}.

Definition propose (box : Arr3 Vec3) (scale : Qc) (axis : Axis) (u : Qc)
  : Proposal :=
  let volume := boxVolume box in
  let deltaVolume := scale * dbl 2 * (u - dbl 0.5) in
  let newVolume := volume + deltaVolume in
  let lengthScale := mkArr3 (dbl 1.0) (dbl 1.0) (dbl 1.0) in
  let lengthScale :=
    if (Axis_eqb axis Axis0 || Axis_eqb axis Axis1)
       && XYMode_eqb (getXYMode owner) XYIsotropic
    then let s := sqrt (newVolume / volume) in
         put (put lengthScale Axis1 s) Axis0 s
    else put lengthScale axis (newVolume / volume) in
  let '(lengthScale, newVolume, deltaVolume) :=
    if ZMode_eqb (getZMode owner) ConstantVolume
    then (put lengthScale Axis2
              (dbl 1.0 / (get lengthScale Axis0 * get lengthScale Axis1)),
          volume, dbl 0)
    else (lengthScale, newVolume, deltaVolume) in
  let deltaArea :=
    el0 (el0 box) * get lengthScale Axis0
    * el1 (el1 box) * get lengthScale Axis1
    - el0 (el0 box) * el1 (el1 box) in
  mkProposal deltaVolume newVolume lengthScale deltaArea.

(** [box[0]*lengthScale[0], box[1]*lengthScale[1], box[2]*lengthScale[2]] *)
Definition scaledBox (box : Arr3 Vec3) (s : Arr3 Qc) : Arr3 Vec3 :=
  mkArr3 (Vec3_scale (el0 box) (el0 s))
         (Vec3_scale (el1 box) (el1 s))
         (Vec3_scale (el2 box) (el2 s)).

(** [scaleCoordinates] on the kernel, then the new box vectors. *)
Definition applyProposal (ctx : Context) (p : Proposal) : Context :=
  let s := lengthScale p in
  setPeriodicBoxVectors
    (callKernel ctx (KScaleCoordinates (el0 s) (el1 s) (el2 s)))
    (scaledBox (boxVectors ctx) s).

(** [kT] *)
Definition kT : Qc := BOLTZ * getTemperature owner.

(** The Metropolis weight [w]. *)
Definition weight (initialEnergy finalEnergy pressure tension : Qc)
           (molecules : nat) (volume : Qc) (p : Proposal) : Qc :=
  finalEnergy - initialEnergy + pressure * deltaVolume p
  - tension * deltaArea p
  - of_int (Z.of_nat molecules) * kT * log (newVolume p / volume).

(** [std::exp(-w/kT)], which the code evaluates only when [w > 0].  At
    [kT = 0] the quotient is minus infinity, and [std::exp] returns 0
    there. *)
Definition boltzmannFactor (w : Qc) : Qc :=
  if Qeqb kT 0 then 0 else exp (- w / kT).

(** [w > 0 && genrand_real2(random) > std::exp(-w/kT)]: whether the step
    is rejected.  The variate is drawn only when [w > 0]. *)
Definition rejects (w : Qc) (r : Rng) : bool * Rng :=
  if Qltb (dbl 0) w then
    let (u, r') := genrand_real2 r in (Qltb (boltzmannFactor w) u, r')
  else (false, r).

(** *** The adaptive tuning of the move amplitude *)
Definition tune (axis : Axis) (volume : Qc) (st : BarostatState)
  : BarostatState :=
  let attempted := get (numAttempted st) axis in
  let accepted := get (numAccepted st) axis in
  if (10 <=? attempted)%Z then
    if Qltb (of_int accepted) (dbl 0.25 * of_int attempted) then
      let st := with_volumeScale st
                  (put (volumeScale st) axis
                       (get (volumeScale st) axis / dbl 1.1)) in
      let st := with_numAttempted st (put (numAttempted st) axis 0%Z) in
      with_numAccepted st (put (numAccepted st) axis 0%Z)
    else if Qltb (dbl 0.75 * of_int attempted) (of_int accepted) then
      let st := with_volumeScale st
                  (put (volumeScale st) axis
                       (std_min (get (volumeScale st) axis * dbl 1.1)
                                (volume * dbl 0.3))) in
      let st := with_numAttempted st (put (numAttempted st) axis 0%Z) in
      with_numAccepted st (put (numAccepted st) axis 0%Z)
    else st
  else st.

(** *** One Metropolis trial

    What [updateContextState] has done when it reaches the tuning: the
    locals a property may speak about, the state with its counters
    updated, and the context as the trial leaves it. *)
Record Trial : Type := mkTrial {
  t_axis : Axis;
  t_box : Arr3 Vec3;      (* [box], read before the move *)
  t_volume0 : Qc;         (* [volume], as first computed *)
  t_proposal : Proposal;
  t_w : Qc;
  t_rng : Rng;            (* [random], when the acceptance test starts *)
  t_rejected : bool;
  t_volume : Qc;          (* [volume], when the tuning reads it *)
  t_state : BarostatState;
  t_context : Context
}.

(** The trial on [axis], the loop having left the generator in the
    state [r].  The energy and the two parameters that the code reads
    before the loop are read here: the loop does not touch the
    context. *)
Definition trialOn (axis : Axis) (r : Rng) (st : BarostatState)
           (ctx : Context) : Trial :=
  let initialEnergy := potentialEnergy ctx in
  let pressure := paramPressure ctx * (AVOGADRO * dbl 1e-25) in
  let tension := paramSurfaceTension ctx * (AVOGADRO * dbl 1e-25) in
  let box := boxVectors ctx in
  let volume := boxVolume box in
  let (u, r) := genrand_real2 r in
  let p := propose box (get (volumeScale st) axis) axis u in
  let ctx := applyProposal ctx p in
  let finalEnergy := potentialEnergy ctx in
  let w := weight initialEnergy finalEnergy pressure tension
                  (numMolecules ctx) volume p in
  let r0 := r in
  let (rejected, r) := rejects w r in
  let st := with_random st r in
  let '(ctx, volume', st) :=
    if rejected then
      (setPeriodicBoxVectors (callKernel ctx KRestoreCoordinates) box,
       newVolume p, st)
    else
      (ctx, volume,
       with_numAccepted st
         (put (numAccepted st) axis (get (numAccepted st) axis + 1)%Z))
  in
  let st := with_numAttempted st
              (put (numAttempted st) axis
                   (get (numAttempted st) axis + 1)%Z) in
  mkTrial axis box volume p w r0 rejected volume' st ctx.

(** The loop, then the trial on the axis it chose. *)
Definition trial (fuel : nat) (st : BarostatState) (ctx : Context)
  : option Trial :=
  match chooseAxis fuel (random st) with
  | None => None
  | Some (axis, r) => Some (trialOn axis r st ctx)
  end.

(** *** updateContextState *)
Definition updateContextState (fuel : nat) (st : BarostatState)
           (ctx : Context) : option (BarostatState * Context) :=
  let st := with_step st (step st + 1) in
  if (step st <? getFrequency owner)%Z || (getFrequency owner =? 0)%Z
  then Some (st, ctx)
  else
    let st := with_step st 0 in
    match trial fuel st ctx with
    | None => None
    | Some t => Some (tune (t_axis t) (t_volume t) (t_state t), t_context t)
    end.

(** Whether a call of [updateContextState] on [st] runs a trial. *)
Definition runsTrial (st : BarostatState) : bool :=
  negb ((step st + 1 <? getFrequency owner)%Z || (getFrequency owner =? 0)%Z).

(** *** The states a simulation can reach

    From [initialize] on the context [ctx0], by calls of
    [updateContextState], the barostat being the only writer of the box
    vectors; [ok st ctx t] is what is assumed of a call on [st] and
    [ctx] whose trial is [t]. *)
Inductive reachable (ok : BarostatState -> Context -> Trial -> Prop)
          (ctx0 : Context) : BarostatState -> Context -> Prop :=
| reach_initialize :
    reachable ok ctx0 (fst (initialize ctx0)) (snd (initialize ctx0))
| reach_update st ctx fuel st' ctx' :
    reachable ok ctx0 st ctx ->
    (forall t, runsTrial st = true ->
               trial fuel (with_step st 0) ctx = Some t ->
               ok st ctx t) ->
    updateContextState fuel st ctx = Some (st', ctx') ->
    reachable ok ctx0 st' ctx'.

(** [n] calls in a row, each with the same [fuel]. *)
Fixpoint run (n : nat) (fuel : nat) (st : BarostatState) (ctx : Context)
  : option (BarostatState * Context) :=
  match n with
  | O => Some (st, ctx)
  | S n' =>
      match updateContextState fuel st ctx with
      | None => None
      | Some (st', ctx') => run n' fuel st' ctx'
      end
  end.

(** [n] calls in a row, given up as soon as a call finds a box whose
    volume is not positive. *)
Fixpoint runPositive (n : nat) (fuel : nat) (st : BarostatState)
         (ctx : Context) : option (BarostatState * Context) :=
  match n with
  | O => Some (st, ctx)
  | S n' =>
      if Qltb 0 (boxVolume (boxVectors ctx)) then
        match updateContextState fuel st ctx with
        | None => None
        | Some (st', ctx') => runPositive n' fuel st' ctx'
        end
      else None
  end.

(** Nothing is assumed of a call. *)
Definition any_call (st : BarostatState) (ctx : Context) (t : Trial) : Prop :=
  True.

(** The box has a positive volume when the trial starts. *)
Definition box_positive (st : BarostatState) (ctx : Context) (t : Trial)
  : Prop :=
  0 < boxVolume (boxVectors ctx).

(** The box has a positive volume when the trial starts, and the volume
    that the trial attempts is positive too. *)
Definition volumes_positive (st : BarostatState) (ctx : Context) (t : Trial)
  : Prop :=
  0 < boxVolume (boxVectors ctx) /\ 0 < newVolume (t_proposal t).

(** The invariants of the state. *)
Definition counters_bounded (st : BarostatState) : Prop :=
  forall i, (0 <= get (numAccepted st) i <= get (numAttempted st) i)%Z.

Definition amplitudes_positive (st : BarostatState) : Prop :=
  forall i, 0 < get (volumeScale st) i.

(** What a simulation at constant volume keeps true: the volume of the
    box is [V0], every amplitude is positive and at most 30% of it, and
    the generator yields variates in [0, 1). *)
Definition constant_volume_invariant (V0 : Qc) (st : BarostatState)
           (ctx : Context) : Prop :=
  boxVolume (boxVectors ctx) = V0 /\
  (forall i, 0 < get (volumeScale st) i /\
             get (volumeScale st) i <= V0 * dbl 0.3) /\
  (forall n, 0 <= draws (random st) n /\ draws (random st) n < 1).

(** [box[0][0]*box[1][1]], the area of the lateral face of a box. *)
Definition lateralArea (box : Arr3 Vec3) : Qc :=
  el0 (el0 box) * el1 (el1 box).

(** The ratio test of the tuning leaves alone an axis that has made
    fewer than 10 attempts, or whose acceptance ratio is between 25% and
    75%. *)
Definition ratio_in_band (st : BarostatState) : Prop :=
  forall i,
    (10 <= get (numAttempted st) i)%Z ->
    (get (numAttempted st) i <= 4 * get (numAccepted st) i)%Z /\
    (4 * get (numAccepted st) i <= 3 * get (numAttempted st) i)%Z.

(* ------------------------------------------------------------------ *)
(** ** Properties of the barostat *)

(** *** Arithmetic on doubles *)

Lemma Qltb_lt (x y : Qc) : Qltb x y = true <-> x < y.
Proof.
  unfold Qltb. rewrite Qclt_alt.
  destruct (x ?= y); split; intro H; congruence.
Qed.

Lemma Qltb_ge (x y : Qc) : Qltb x y = false <-> y <= x.
Proof.
  split; intro H.
  - apply Qcnot_lt_le. intro L. apply Qltb_lt in L. congruence.
  - destruct (Qltb x y) eqn:E; [|reflexivity].
    apply Qltb_lt in E. exfalso. exact (Qcle_not_lt _ _ H E).
Qed.

Lemma get_put_same {T} (x : Arr3 T) (a : Axis) (v : T) :
  get (put x a v) a = v.
Proof. destruct a; reflexivity. Qed.

Lemma get_put_other {T} (x : Arr3 T) (a b : Axis) (v : T) :
  a <> b -> get (put x a v) b = get x b.
Proof. destruct a, b; intro H; try reflexivity; congruence. Qed.

Lemma trial_Some fuel st ctx t :
  trial fuel st ctx = Some t ->
  exists axis r,
    chooseAxis fuel (random st) = Some (axis, r) /\ t = trialOn axis r st ctx.
Proof.
  unfold trial. destruct (chooseAxis fuel (random st)) as [[axis r]|];
    intro H; [|discriminate].
  injection H as <-. eauto.
Qed.

(** The members of a trial, in terms of the functions above. *)
Lemma trialOn_fields axis r st ctx :
  let t := trialOn axis r st ctx in
  let p := propose (boxVectors ctx) (get (volumeScale st) axis) axis
                   (fst (genrand_real2 r)) in
  let ctx1 := applyProposal ctx p in
  t_axis t = axis /\
  t_box t = boxVectors ctx /\
  t_volume0 t = boxVolume (boxVectors ctx) /\
  t_proposal t = p /\
  t_w t = weight (potentialEnergy ctx) (potentialEnergy ctx1)
                 (paramPressure ctx * (AVOGADRO * dbl 1e-25))
                 (paramSurfaceTension ctx * (AVOGADRO * dbl 1e-25))
                 (numMolecules ctx) (boxVolume (boxVectors ctx)) p /\
  t_rng t = snd (genrand_real2 r) /\
  t_rejected t = fst (rejects (t_w t) (t_rng t)) /\
  t_volume t = (if t_rejected t then newVolume p
                else boxVolume (boxVectors ctx)) /\
  t_context t =
    (if t_rejected t
     then setPeriodicBoxVectors (callKernel ctx1 KRestoreCoordinates)
                                (boxVectors ctx)
     else ctx1) /\
  step (t_state t) = step st /\
  volumeScale (t_state t) = volumeScale st /\
  random (t_state t) = snd (rejects (t_w t) (t_rng t)) /\
  numAttempted (t_state t) =
    put (numAttempted st) axis (get (numAttempted st) axis + 1)%Z /\
  numAccepted (t_state t) =
    (if t_rejected t then numAccepted st
     else put (numAccepted st) axis (get (numAccepted st) axis + 1)%Z).
Proof.
  unfold trialOn. cbn [genrand_real2 fst snd].
  destruct (rejects _ _) as [[|] r'] eqn:E;
    cbn [t_axis t_box t_volume0 t_proposal t_w t_rng t_rejected t_volume
         t_state t_context with_random with_numAccepted with_numAttempted
         step volumeScale random numAttempted numAccepted];
    rewrite ?E; cbn [fst snd]; repeat split.
Qed.

(** *** C1: the acceptance rule *)

(** The four constants, as the [float]s they are. *)
Lemma constants_as_floats :
  BOLTZMANN = dbl (546935 # 39614081257132168796771975168) /\
  AVOGADRO = dbl 602213668038217685794816 /\
  RGAS = dbl (8718397 # 1048576) /\
  BOLTZ = dbl (8927639 # 1073741824).
Proof. repeat split; apply Qc_is_canon; vm_compute; reflexivity. Qed.

(** C1.  In every trial that [updateContextState] runs, [w] being the
    Metropolis weight that the code computes: when [w] is at most 0 the
    step is accepted and no variate is drawn for the test; when [w] is
    positive the step is accepted exactly when the variate [u] drawn
    for the test satisfies [u <= exp(-w/kT)], where [exp(-w/kT)] is
    [exp] at the quotient when [kT] is not 0, and 0 (the exponential of
    minus infinity) when [kT] is 0.  An accepted step is one that
    increments [numAccepted[axis]]. *)
Theorem acceptance_rule fuel st ctx t :
  trial fuel st ctx = Some t ->
  let u := fst (genrand_real2 (t_rng t)) in
  t_w t = weight (potentialEnergy ctx)
                 (potentialEnergy (applyProposal ctx (t_proposal t)))
                 (paramPressure ctx * (AVOGADRO * dbl 1e-25))
                 (paramSurfaceTension ctx * (AVOGADRO * dbl 1e-25))
                 (numMolecules ctx) (boxVolume (boxVectors ctx))
                 (t_proposal t) /\
  (t_w t <= 0 ->
   t_rejected t = false /\ random (t_state t) = t_rng t) /\
  (0 < t_w t ->
   (t_rejected t = false <-> u <= boltzmannFactor (t_w t))) /\
  (kT <> 0 -> boltzmannFactor (t_w t) = exp (- t_w t / kT)) /\
  (kT = 0 -> boltzmannFactor (t_w t) = 0) /\
  (t_rejected t = false <->
   get (numAccepted (t_state t)) (t_axis t)
   = (get (numAccepted st) (t_axis t) + 1)%Z).
Proof.
  clear init_gen_rand osrngseed.
  intros H u. apply trial_Some in H as (axis & r & _ & ->).
  pose proof (trialOn_fields axis r st ctx) as F. cbv zeta in F.
  destruct F
    as (Ha & _ & _ & Hp & Hw & _ & Hrej & _ & _ & _ & _ & Hr & _ & Hacc).
  subst u. set (t := trialOn axis r st ctx) in *.
  split; [rewrite Hp; exact Hw|]. clear Hp Hw.
  rewrite Hr, Hacc, Hrej, Ha. unfold rejects. cbn [genrand_real2 fst snd].
  assert (B : (kT <> 0 -> boltzmannFactor (t_w t) = exp (- t_w t / kT)) /\
              (kT = 0 -> boltzmannFactor (t_w t) = 0)).
  { unfold boltzmannFactor, Qeqb. destruct (kT ?= 0) eqn:E.
    - apply Qceq_alt in E. split; [contradiction|reflexivity].
    - split; [reflexivity|]. intro Z. apply Qceq_alt in Z. congruence.
    - split; [reflexivity|]. intro Z. apply Qceq_alt in Z. congruence. }
  destruct B as [B1 B0].
  destruct (Qltb (dbl 0) (t_w t)) eqn:W.
  - apply Qltb_lt in W. cbn [fst snd].
    split; [|split; [|split; [exact B1|split; [exact B0|]]]].
    + intro L. exfalso. exact (Qcle_not_lt _ _ L W).
    + intros _. rewrite Qltb_ge. reflexivity.
    + destruct (Qltb _ _); [|rewrite get_put_same; tauto].
      split; [discriminate | lia].
  - apply Qltb_ge in W. cbn [fst snd].
    split; [|split; [|split; [exact B1|split; [exact B0|]]]].
    + intros _. split; reflexivity.
    + intro L. exfalso. exact (Qcle_not_lt _ _ W L).
    + rewrite get_put_same. tauto.
Qed.

(** [updateContextState], when the step counter reaches the frequency. *)
Lemma updateContextState_trial fuel st ctx :
  runsTrial st = true ->
  updateContextState fuel st ctx =
  match trial fuel (with_step st 0) ctx with
  | None => None
  | Some t => Some (tune (t_axis t) (t_volume t) (t_state t), t_context t)
  end.
Proof.
  unfold runsTrial, updateContextState. cbn [step with_step].
  intro H. apply negb_true_iff in H. rewrite H. reflexivity.
Qed.

(** *** C2: rejection *)

(** C2.  When the trial of a call is rejected, the kernel receives
    [restoreCoordinates] (after the [scaleCoordinates] of the move), the
    box vectors of the context are those it had before the call, and
    nothing else in the context changes; the [volume] that the tuning
    reads is the attempted [newVolume]. *)
Theorem rejection_restores fuel st ctx t :
  runsTrial st = true ->
  trial fuel (with_step st 0) ctx = Some t ->
  t_rejected t = true ->
  let p := t_proposal t in
  let s := lengthScale p in
  updateContextState fuel st ctx
  = Some (tune (t_axis t) (newVolume p) (t_state t), t_context t) /\
  t_context t
  = callKernel (callKernel ctx (KScaleCoordinates (el0 s) (el1 s) (el2 s)))
               KRestoreCoordinates /\
  boxVectors (t_context t) = boxVectors ctx /\
  t_volume t = newVolume p /\
  newVolume p = boxVolume (boxVectors ctx) + deltaVolume p /\
  numAccepted (t_state t) = numAccepted st.
Proof.
  intros Hrun H Hrej p s.
  rewrite (updateContextState_trial fuel st ctx Hrun), H.
  apply trial_Some in H as (axis & r & _ & ->).
  pose proof (trialOn_fields axis r (with_step st 0) ctx) as F.
  cbv zeta in F.
  destruct F as (_ & _ & _ & Hp & _ & _ & _ & Hv & Hc & _ & _ & _ & _ & Hacc).
  subst p s. set (t := trialOn axis r (with_step st 0) ctx) in *.
  rewrite Hrej in Hv, Hc, Hacc. rewrite Hv, Hc, Hacc, Hp.
  repeat split.
  unfold propose. cbn [volumeScale with_step].
  destruct (ZMode_eqb (getZMode owner) ConstantVolume);
    cbn [newVolume deltaVolume]; [|reflexivity].
  unfold dbl. ring.
Qed.

(** *** C3 and C4: the adaptive tuning *)

(** The two tests on the acceptance ratio, on integers. *)
Lemma below_quarter (a n : Z) :
  of_int a < dbl 0.25 * of_int n <-> (4 * a < n)%Z.
Proof.
  qc2q. unfold Qlt, Qmult, inject_Z. cbn [Qnum Qden]. lia.
Qed.

Lemma above_three_quarters (a n : Z) :
  dbl 0.75 * of_int n < of_int a <-> (3 * n < 4 * a)%Z.
Proof.
  qc2q. unfold Qlt, Qmult, inject_Z. cbn [Qnum Qden]. lia.
Qed.

(** [tune] by cases. *)
Lemma tune_below_threshold axis volume st :
  (get (numAttempted st) axis < 10)%Z -> tune axis volume st = st.
Proof.
  intro H. unfold tune.
  destruct (Z.leb_spec 10 (get (numAttempted st) axis)); [lia|reflexivity].
Qed.

Lemma tune_shrink axis volume st :
  (10 <= get (numAttempted st) axis)%Z ->
  of_int (get (numAccepted st) axis)
  < dbl 0.25 * of_int (get (numAttempted st) axis) ->
  tune axis volume st
  = mkState (step st)
            (put (volumeScale st) axis (get (volumeScale st) axis / dbl 1.1))
            (put (numAttempted st) axis 0%Z)
            (put (numAccepted st) axis 0%Z)
            (random st).
Proof.
  intros H L. unfold tune.
  destruct (Z.leb_spec 10 (get (numAttempted st) axis)); [|lia].
  apply Qltb_lt in L. rewrite L. reflexivity.
Qed.

Lemma tune_grow axis volume st :
  (10 <= get (numAttempted st) axis)%Z ->
  ~ of_int (get (numAccepted st) axis)
    < dbl 0.25 * of_int (get (numAttempted st) axis) ->
  dbl 0.75 * of_int (get (numAttempted st) axis)
  < of_int (get (numAccepted st) axis) ->
  tune axis volume st
  = mkState (step st)
            (put (volumeScale st) axis
                 (std_min (get (volumeScale st) axis * dbl 1.1)
                          (volume * dbl 0.3)))
            (put (numAttempted st) axis 0%Z)
            (put (numAccepted st) axis 0%Z)
            (random st).
Proof.
  intros H NL G. unfold tune.
  destruct (Z.leb_spec 10 (get (numAttempted st) axis)); [|lia].
  destruct (Qltb (of_int _) (dbl 0.25 * _)) eqn:E;
    [apply Qltb_lt in E; contradiction|].
  apply Qltb_lt in G. rewrite G. reflexivity.
Qed.

Lemma tune_keep axis volume st :
  ~ of_int (get (numAccepted st) axis)
    < dbl 0.25 * of_int (get (numAttempted st) axis) ->
  ~ dbl 0.75 * of_int (get (numAttempted st) axis)
    < of_int (get (numAccepted st) axis) ->
  tune axis volume st = st.
Proof.
  intros NL NG. unfold tune.
  destruct (10 <=? _)%Z; [|reflexivity].
  destruct (Qltb (of_int _) (dbl 0.25 * _)) eqn:E;
    [apply Qltb_lt in E; contradiction|].
  destruct (Qltb (dbl 0.75 * _) _) eqn:G;
    [apply Qltb_lt in G; contradiction|].
  reflexivity.
Qed.

Lemma std_min_spec (a b : Qc) :
  std_min a b <= a /\ std_min a b <= b /\ (std_min a b = a \/ std_min a b = b).
Proof.
  unfold std_min. destruct (Qltb b a) eqn:E.
  - apply Qltb_lt in E. repeat split; [apply Qclt_le_weak; exact E | | ].
    + apply Qcle_refl.
    + right; reflexivity.
  - apply Qltb_ge in E. repeat split; [apply Qcle_refl | exact E | ].
    left; reflexivity.
Qed.


(** The tuning by cases, whatever [volume] it is given. *)
Lemma tune_cases axis volume st :
  let n := get (numAttempted st) axis in
  let a := get (numAccepted st) axis in
  let v := get (volumeScale st) axis in
  (10 <= n)%Z ->
  (of_int a < dbl 0.25 * of_int n ->
   tune axis volume st
   = mkState (step st) (put (volumeScale st) axis (v / dbl 1.1))
             (put (numAttempted st) axis 0%Z)
             (put (numAccepted st) axis 0%Z) (random st)) /\
  (~ of_int a < dbl 0.25 * of_int n ->
   dbl 0.75 * of_int n < of_int a ->
   exists v',
     tune axis volume st
     = mkState (step st) (put (volumeScale st) axis v')
               (put (numAttempted st) axis 0%Z)
               (put (numAccepted st) axis 0%Z) (random st) /\
     v' = std_min (v * dbl 1.1) (volume * dbl 0.3) /\
     v' <= volume * dbl 0.3 /\
     v' <= v * dbl 1.1 /\
     (v * dbl 1.1 <= volume * dbl 0.3 -> v' = v * dbl 1.1) /\
     (volume * dbl 0.3 < v * dbl 1.1 -> v' = volume * dbl 0.3)) /\
  (~ of_int a < dbl 0.25 * of_int n ->
   ~ dbl 0.75 * of_int n < of_int a ->
   tune axis volume st = st).
Proof.
  intros n a v H. split; [|split].
  - intro L. apply tune_shrink; assumption.
  - intros NL G. exists (std_min (v * dbl 1.1) (volume * dbl 0.3)).
    split; [apply tune_grow; assumption|].
    split; [reflexivity|].
    unfold std_min.
    destruct (Qltb (volume * dbl 0.3) (v * dbl 1.1)) eqn:E.
    + apply Qltb_lt in E. split; [apply Qcle_refl|].
      split; [apply Qclt_le_weak; exact E|]. split.
      * intro L. exfalso. exact (Qcle_not_lt _ _ L E).
      * reflexivity.
    + apply Qltb_ge in E. split; [exact E|].
      split; [apply Qcle_refl|]. split.
      * reflexivity.
      * intro L. exfalso. exact (Qcle_not_lt _ _ E L).
  - intros NL NG. apply tune_keep; assumption.
Qed.

Lemma put_put {T} (x : Arr3 T) (a : Axis) (v w : T) :
  put (put x a v) a w = put x a w.
Proof. destruct a; reflexivity. Qed.


(** *** C8: the axis-selection loop *)

Lemma chooseAxis_unfold fuel r :
  chooseAxis (S fuel) r =
  let rnd := draws r (pos r) * dbl 3.0 in
  let r' := mkRng (draws r) (S (pos r)) in
  if Qltb rnd (dbl 1.0) then Some (Axis0, r')
  else if Qltb rnd (dbl 2.0) then
    Some (if XYMode_eqb (getXYMode owner) XYIsotropic
          then Axis0 else Axis1, r')
  else if ZMode_eqb (getZMode owner) ZFree then Some (Axis2, r')
  else chooseAxis fuel r'.
Proof. reflexivity. Qed.

Lemma ZMode_eqb_eq (a b : ZMode) : ZMode_eqb a b = true <-> a = b.
Proof. destruct a, b; cbn; split; intro H; congruence. Qed.

Lemma XYMode_eqb_eq (a b : XYMode) : XYMode_eqb a b = true <-> a = b.
Proof. destruct a, b; cbn; split; intro H; congruence. Qed.

(** The loop only advances the generator. *)
Lemma chooseAxis_draws fuel : forall r a r',
  chooseAxis fuel r = Some (a, r') ->
  draws r' = draws r /\ (pos r < pos r')%nat.
Proof.
  induction fuel as [|fuel IH]; intros r a r' H; [discriminate|].
  rewrite chooseAxis_unfold in H. cbv zeta in H.
  destruct (Qltb _ (dbl 1.0));
    [injection H as <- <-; cbn; split; [reflexivity|lia]|].
  destruct (Qltb _ (dbl 2.0));
    [injection H as <- <-; cbn; split; [reflexivity|lia]|].
  destruct (ZMode_eqb _ _);
    [injection H as <- <-; cbn; split; [reflexivity|lia]|].
  apply IH in H as [E L]. cbn in E, L. split; [exact E|lia].
Qed.

(** What the loop can return. *)
Lemma chooseAxis_valid fuel : forall r a r',
  chooseAxis fuel r = Some (a, r') ->
  (a = Axis2 -> getZMode owner = ZFree) /\
  (getXYMode owner = XYIsotropic -> a <> Axis1).
Proof.
  induction fuel as [|fuel IH]; intros r a r' H; [discriminate|].
  rewrite chooseAxis_unfold in H. cbv zeta in H.
  destruct (Qltb _ (dbl 1.0));
    [injection H as <- <-; split; intros; discriminate|].
  destruct (Qltb _ (dbl 2.0)).
  { injection H as <- <-.
    destruct (XYMode_eqb (getXYMode owner) XYIsotropic) eqn:E.
    - split; intros; discriminate.
    - split; [intros; discriminate|].
      intro I. apply XYMode_eqb_eq in I. congruence. }
  destruct (ZMode_eqb _ _) eqn:E.
  { injection H as <- <-. apply ZMode_eqb_eq in E.
    split; [intros; exact E | intros; discriminate]. }
  exact (IH _ _ _ H).
Qed.

(** The loop exits at the first variate below 2/3, at once when the
    normal axis is free. *)
Lemma chooseAxis_exits k : forall r fuel,
  draws r (pos r + k) * dbl 3.0 < dbl 2.0 \/ getZMode owner = ZFree ->
  (k < fuel)%nat ->
  exists a r', chooseAxis fuel r = Some (a, r').
Proof.
  induction k as [|k IH]; intros r fuel V L;
    (destruct fuel as [|fuel]; [lia|]);
    rewrite chooseAxis_unfold; cbv zeta;
    (destruct (Qltb _ (dbl 1.0)); [eauto|]);
    (destruct (Qltb _ (dbl 2.0)) eqn:E2; [eauto|]);
    (destruct (ZMode_eqb _ _) eqn:EZ; [eauto|]).
  - exfalso. destruct V as [V|V].
    + rewrite Nat.add_0_r in V. apply Qltb_lt in V. congruence.
    + apply ZMode_eqb_eq in V. congruence.
  - apply IH; [|lia]. cbn [draws pos].
    rewrite Nat.add_succ_l, <- Nat.add_succ_r. exact V.
Qed.

(** It never exits on a sequence that stays at 2/3 or above, unless the
    normal axis is free. *)
Lemma chooseAxis_spins fuel : forall r,
  getZMode owner <> ZFree ->
  (forall k, dbl 2.0 <= draws r (pos r + k) * dbl 3.0) ->
  chooseAxis fuel r = None.
Proof.
  induction fuel as [|fuel IH]; intros r NZ H; [reflexivity|].
  rewrite chooseAxis_unfold. cbv zeta.
  pose proof (H 0%nat) as H0. rewrite Nat.add_0_r in H0.
  assert (L2 : Qltb (draws r (pos r) * dbl 3.0) (dbl 2.0) = false)
    by (apply Qltb_ge; exact H0).
  assert (L1 : Qltb (draws r (pos r) * dbl 3.0) (dbl 1.0) = false).
  { apply Qltb_ge. eapply Qcle_trans; [|exact H0]. discriminate. }
  rewrite L1, L2.
  destruct (ZMode_eqb _ _) eqn:EZ; [apply ZMode_eqb_eq in EZ; contradiction|].
  apply IH; [exact NZ|]. intro k. cbn [draws pos].
  rewrite Nat.add_succ_l, <- Nat.add_succ_r. apply H.
Qed.


(** *** C6: a frequency of zero *)

(** C6, as the code has it.  With a frequency of 0 every call returns
    without running a trial: the context, the amplitudes, the counters of
    the axes and the generator are unchanged; the step counter is
    incremented by one at each call. *)
Theorem frequency_zero fuel st ctx :
  getFrequency owner = 0%Z ->
  updateContextState fuel st ctx = Some (with_step st (step st + 1), ctx) /\
  forall n, exists st',
    run n fuel st ctx = Some (st', ctx) /\
    step st' = (step st + Z.of_nat n)%Z /\
    volumeScale st' = volumeScale st /\
    numAttempted st' = numAttempted st /\
    numAccepted st' = numAccepted st /\
    random st' = random st.
Proof.
  intro F.
  assert (U : forall s, updateContextState fuel s ctx
                        = Some (with_step s (step s + 1), ctx)).
  { intro s. unfold updateContextState. cbn [step with_step].
    rewrite F, orb_true_r. reflexivity. }
  split; [apply U|].
  intro n. revert st. induction n as [|n IH]; intro st.
  - exists st. cbn [run]. rewrite Z.add_0_r. repeat split.
  - cbn [run]. rewrite U.
    destruct (IH (with_step st (step st + 1))) as (st' & R & S & V & A & B & G).
    exists st'. cbn [step with_step volumeScale numAttempted numAccepted random]
      in S, V, A, B, G.
    rewrite R. repeat split; try assumption. lia.
Qed.

(** *** The two ways a call can go *)

Lemma updateContextState_cases fuel st ctx st' ctx' :
  updateContextState fuel st ctx = Some (st', ctx') ->
  (runsTrial st = false /\ st' = with_step st (step st + 1) /\ ctx' = ctx) \/
  (runsTrial st = true /\
   exists t, trial fuel (with_step st 0) ctx = Some t /\
             st' = tune (t_axis t) (t_volume t) (t_state t) /\
             ctx' = t_context t).
Proof.
  destruct (runsTrial st) eqn:R.
  - rewrite (updateContextState_trial fuel st ctx R).
    destruct (trial fuel (with_step st 0) ctx) as [t|]; [|discriminate].
    intro H. injection H as <- <-. right. eauto.
  - unfold runsTrial in R. apply negb_false_iff in R.
    unfold updateContextState. cbn [step with_step]. rewrite R.
    intro H. injection H as <- <-. left. auto.
Qed.

(** The tuning leaves the step counter, the generator and the other
    axes alone. *)
Lemma tune_frame axis volume st :
  step (tune axis volume st) = step st /\
  random (tune axis volume st) = random st /\
  forall b, b <> axis ->
    get (volumeScale (tune axis volume st)) b = get (volumeScale st) b /\
    get (numAttempted (tune axis volume st)) b = get (numAttempted st) b /\
    get (numAccepted (tune axis volume st)) b = get (numAccepted st) b.
Proof.
  unfold tune.
  destruct (10 <=? _)%Z; [|repeat split].
  destruct (Qltb (of_int _) _);
    [cbn; repeat split; apply get_put_other; congruence|].
  destruct (Qltb _ (of_int _));
    [cbn; repeat split; apply get_put_other; congruence|].
  repeat split.
Qed.

(** *** C10: axis 1 under XYIsotropic *)

Lemma isotropic_update fuel st ctx st' ctx' :
  getXYMode owner = XYIsotropic ->
  updateContextState fuel st ctx = Some (st', ctx') ->
  get (volumeScale st') Axis1 = get (volumeScale st) Axis1 /\
  get (numAttempted st') Axis1 = get (numAttempted st) Axis1 /\
  get (numAccepted st') Axis1 = get (numAccepted st) Axis1.
Proof.
  intros I H.
  apply updateContextState_cases in H
    as [(_ & -> & _) | (_ & t & T & -> & _)]; [repeat split|].
  apply trial_Some in T as (axis & r & C & ->).
  apply chooseAxis_valid in C as [_ C]. specialize (C I).
  pose proof (trialOn_fields axis r (with_step st 0) ctx) as F.
  cbv zeta in F.
  destruct F
    as (Ha & _ & _ & _ & _ & _ & _ & _ & _ & _ & Hvs & _ & Hatt & Hacc).
  set (t := trialOn axis r (with_step st 0) ctx) in *.
  destruct (tune_frame (t_axis t) (t_volume t) (t_state t)) as (_ & _ & Fr).
  rewrite Ha in *.
  destruct (Fr Axis1) as (-> & -> & ->); [congruence|].
  rewrite Hvs, Hatt, Hacc. cbn [volumeScale numAttempted numAccepted with_step].
  repeat split.
  - apply get_put_other. congruence.
  - destruct (t_rejected t); [reflexivity|]. apply get_put_other. congruence.
Qed.

(** C10.  Under [XYIsotropic] no trial is made on axis 1, and in every
    state reached from [initialize] by calls of [updateContextState] the
    members of index 1 are as [initialize] left them: no attempt, no
    acceptance, and an amplitude of 1% of the initial volume. *)
Theorem isotropic_axis1_untouched ctx0 st ctx :
  getXYMode owner = XYIsotropic ->
  reachable any_call ctx0 st ctx ->
  get (numAttempted st) Axis1 = 0%Z /\
  get (numAccepted st) Axis1 = 0%Z /\
  get (volumeScale st) Axis1 = dbl 0.01 * boxVolume (boxVectors ctx0) /\
  forall fuel t, trial fuel (with_step st 0) ctx = Some t -> t_axis t <> Axis1.
Proof.
  intros I R.
  assert (A : get (numAttempted st) Axis1 = 0%Z /\
              get (numAccepted st) Axis1 = 0%Z /\
              get (volumeScale st) Axis1
              = dbl 0.01 * boxVolume (boxVectors ctx0)).
  { induction R as [|st ctx fuel st' ctx' R IH _ U].
    - cbn. repeat split.
    - destruct (isotropic_update fuel st ctx st' ctx' I U) as (-> & -> & ->).
      exact IH. }
  destruct A as (A1 & A2 & A3). repeat split; try assumption.
  intros fuel t T. apply trial_Some in T as (axis & r & C & ->).
  apply chooseAxis_valid in C as [_ C].
  destruct (trialOn_fields axis r (with_step st 0) ctx) as (-> & _).
  exact (C I).
Qed.

(** *** C7: the invariants of the state *)

Lemma tune_counters axis volume st :
  counters_bounded st -> counters_bounded (tune axis volume st).
Proof.
  intros H i. unfold tune.
  destruct (10 <=? _)%Z; [|apply H].
  destruct (Qltb (of_int _) _).
  { pose proof (H i). destruct axis, i; cbn in *; lia. }
  destruct (Qltb _ (of_int _)); [|apply H].
  pose proof (H i). destruct axis, i; cbn in *; lia.
Qed.

Lemma trialOn_counters axis r st ctx :
  counters_bounded st -> counters_bounded (t_state (trialOn axis r st ctx)).
Proof.
  intros H i.
  destruct (trialOn_fields axis r st ctx)
    as (_ & _ & _ & _ & _ & _ & _ & _ & _ & _ & _ & _ & -> & ->).
  pose proof (H i). pose proof (H axis).
  destruct (t_rejected _); destruct axis, i; cbn in *; lia.
Qed.

Lemma update_counters fuel st ctx st' ctx' :
  updateContextState fuel st ctx = Some (st', ctx') ->
  counters_bounded st -> counters_bounded st'.
Proof.
  intros U H.
  apply updateContextState_cases in U
    as [(_ & -> & _) | (_ & t & T & -> & _)]; [exact H|].
  apply trial_Some in T as (axis & r & _ & ->).
  apply tune_counters, trialOn_counters. exact H.
Qed.

Lemma pos_div_11 (v : Qc) : 0 < v -> 0 < v / dbl 1.1.
Proof.
  intro H. qc2q.
  setoid_replace (/ 1.1)%Q with (10 # 11)%Q by reflexivity. lra.
Qed.

Lemma pos_std_min (a b : Qc) : 0 < a -> 0 < b -> 0 < std_min a b.
Proof. intros A B. unfold std_min. destruct (Qltb b a); assumption. Qed.

Lemma pos_times (v c : Qc) : 0 < v -> 0 < c -> 0 < v * c.
Proof. intros V C. qc2q. nra. Qed.

Lemma tune_amplitudes axis volume st :
  0 < volume -> amplitudes_positive st ->
  amplitudes_positive (tune axis volume st).
Proof.
  intros V H i. unfold tune.
  destruct (10 <=? _)%Z; [|apply H].
  destruct (Qltb (of_int _) _).
  { cbn [volumeScale with_volumeScale with_numAttempted with_numAccepted].
    pose proof (pos_div_11 _ (H axis)). pose proof (H i).
    destruct axis, i; cbn in *; assumption. }
  destruct (Qltb _ (of_int _)); [|apply H].
  cbn [volumeScale with_volumeScale with_numAttempted with_numAccepted].
  assert (P : 0 < std_min (get (volumeScale st) axis * dbl 1.1)
                          (volume * dbl 0.3)).
  { apply pos_std_min; apply pos_times; try apply H; try assumption;
      reflexivity. }
  pose proof (H i). destruct axis, i; cbn in *; assumption.
Qed.

Lemma update_amplitudes fuel st ctx st' ctx' :
  updateContextState fuel st ctx = Some (st', ctx') ->
  (forall t, runsTrial st = true ->
             trial fuel (with_step st 0) ctx = Some t ->
             volumes_positive st ctx t) ->
  amplitudes_positive st -> amplitudes_positive st'.
Proof.
  intros U OK H.
  apply updateContextState_cases in U
    as [(_ & -> & _) | (R & t & T & -> & _)]; [exact H|].
  destruct (OK t R T) as [V N].
  apply trial_Some in T as (axis & r & _ & ->).
  destruct (trialOn_fields axis r (with_step st 0) ctx)
    as (_ & _ & _ & Hp & _ & _ & _ & Hv & _ & _ & Hvs & _).
  apply tune_amplitudes.
  - rewrite Hv. rewrite Hp in N. destruct (t_rejected _); assumption.
  - intro i. rewrite Hvs. apply H.
Qed.


(** The bound on the counters needs no assumption on the calls. *)
Lemma counters_always_bounded ok ctx0 st ctx :
  reachable ok ctx0 st ctx -> counters_bounded st.
Proof.
  induction 1 as [|st ctx fuel st' ctx' R IC _ U].
  - intro i. destruct i; cbn; lia.
  - exact (update_counters fuel st ctx st' ctx' U IC).
Qed.

(** A run that found the box positive at each call is made of calls
    that [box_positive] allows. *)
Lemma runPositive_reachable ctx0 n fuel : forall st ctx st' ctx',
  reachable box_positive ctx0 st ctx ->
  runPositive n fuel st ctx = Some (st', ctx') ->
  reachable box_positive ctx0 st' ctx'.
Proof.
  induction n as [|n IH]; intros st ctx st' ctx' R H; cbn [runPositive] in H.
  - injection H as <- <-. exact R.
  - destruct (Qltb 0 (boxVolume (boxVectors ctx))) eqn:P; [|discriminate].
    apply Qltb_lt in P.
    destruct (updateContextState fuel st ctx) as [[st1 ctx1]|] eqn:U;
      [|discriminate].
    apply (IH st1 ctx1); [|exact H].
    apply (reach_update box_positive ctx0 st ctx fuel); [exact R| |exact U].
    intros t _ _. exact P.
Qed.

(** *** C5: the normal axis at constant volume *)

Lemma dbl_one : dbl 1.0 = 1.
Proof. apply Qc_is_canon. reflexivity. Qed.

Lemma propose_constant_volume box scale axis u :
  getZMode owner = ConstantVolume ->
  let p := propose box scale axis u in
  let s := lengthScale p in
  get s Axis2 = dbl 1.0 / (get s Axis0 * get s Axis1) /\
  deltaVolume p = dbl 0 /\
  newVolume p = boxVolume box.
Proof.
  intro Z. unfold propose. rewrite Z. cbn [ZMode_eqb].
  destruct (_ && _); [repeat split|].
  destruct axis; repeat split.
Qed.

(** A box scaled by [s] with [s[2] = 1/(s[0]*s[1])] keeps its volume. *)
Lemma scaledBox_volume box (s : Arr3 Qc) :
  get s Axis0 * get s Axis1 <> 0 ->
  get s Axis2 = dbl 1.0 / (get s Axis0 * get s Axis1) ->
  boxVolume (scaledBox box s) = boxVolume box.
Proof.
  cbn [get]. intros N E. unfold boxVolume, scaledBox, Vec3_scale.
  cbn [el0 el1 el2]. rewrite E, dbl_one. field.
  split; intro Z; apply N; rewrite Z; ring.
Qed.

Lemma div_pos (a b : Qc) : 0 < a -> 0 < b -> 0 < a / b.
Proof.
  intros A B. qc2q. apply Qlt_shift_div_l; [exact B|lra].
Qed.

(** When the volume of the box and the volume that the move attempts
    are positive, the lateral scales of a proposal are positive. *)
Lemma propose_lateral_positive_volumes box scale axis u :
  (forall x, 0 < x -> 0 < sqrt x) ->
  0 < boxVolume box ->
  0 < boxVolume box + scale * dbl 2 * (u - dbl 0.5) ->
  let s := lengthScale (propose box scale axis u) in
  0 < get s Axis0 * get s Axis1.
Proof.
  intros S V A.
  assert (R : 0 < (boxVolume box + scale * dbl 2 * (u - dbl 0.5))
                  / boxVolume box)
    by (apply div_pos; assumption).
  assert (O : (0 : Qc) < 1) by reflexivity.
  unfold propose.
  set (ratio := (boxVolume box + scale * dbl 2 * (u - dbl 0.5))
                / boxVolume box) in *.
  assert (E : forall l : Arr3 Qc,
             get (let '(l', _, _) :=
                    if ZMode_eqb (getZMode owner) ConstantVolume
                    then (put l Axis2 (dbl 1.0 / (get l Axis0 * get l Axis1)),
                          boxVolume box, dbl 0)
                    else (l, boxVolume box + scale * dbl 2 * (u - dbl 0.5),
                          scale * dbl 2 * (u - dbl 0.5)) in l') Axis0
             = get l Axis0 /\
             get (let '(l', _, _) :=
                    if ZMode_eqb (getZMode owner) ConstantVolume
                    then (put l Axis2 (dbl 1.0 / (get l Axis0 * get l Axis1)),
                          boxVolume box, dbl 0)
                    else (l, boxVolume box + scale * dbl 2 * (u - dbl 0.5),
                          scale * dbl 2 * (u - dbl 0.5)) in l') Axis1
             = get l Axis1).
  { intro l. destruct (ZMode_eqb _ _); split; reflexivity. }
  cbv zeta.
  destruct (ZMode_eqb (getZMode owner) ConstantVolume);
    cbn [lengthScale];
    (destruct ((Axis_eqb axis Axis0 || Axis_eqb axis Axis1)
               && XYMode_eqb (getXYMode owner) XYIsotropic);
     [cbn [get put el0 el1]; apply pos_times; apply S; exact R|]);
    destruct axis; cbn [get put el0 el1]; rewrite ?dbl_one;
      apply pos_times; assumption.
Qed.

(** With an amplitude of at most 30% of a positive volume, the lateral
    scales of a proposal are positive. *)
Lemma propose_lateral_positive box scale axis u :
  (forall x, 0 < x -> 0 < sqrt x) ->
  0 < boxVolume box ->
  0 < scale -> scale <= boxVolume box * dbl 0.3 ->
  0 <= u -> u < 1 ->
  let s := lengthScale (propose box scale axis u) in
  0 < get s Axis0 * get s Axis1.
Proof.
  intros S V P B U0 U1.
  apply propose_lateral_positive_volumes; [exact S|exact V|].
  clear S. qc2q. nra.
Qed.

Lemma rejects_draws w r : draws (snd (rejects w r)) = draws r.
Proof. unfold rejects. destruct (Qltb (dbl 0) w); reflexivity. Qed.

Lemma le_div_11 (v : Qc) : 0 < v -> v / dbl 1.1 <= v.
Proof.
  intro H. qc2q.
  setoid_replace (/ 1.1)%Q with (10 # 11)%Q by reflexivity. lra.
Qed.

Lemma tune_capped axis V st :
  0 < V ->
  (forall i, 0 < get (volumeScale st) i /\
             get (volumeScale st) i <= V * dbl 0.3) ->
  forall i, 0 < get (volumeScale (tune axis V st)) i /\
            get (volumeScale (tune axis V st)) i <= V * dbl 0.3.
Proof.
  intros P H i.
  assert (A : amplitudes_positive st) by (intro j; apply H).
  split; [apply tune_amplitudes; assumption|].
  unfold tune.
  destruct (10 <=? _)%Z; [|apply H].
  destruct (Qltb (of_int _) _).
  { cbn [volumeScale with_volumeScale with_numAttempted with_numAccepted].
    assert (L : get (volumeScale st) axis / dbl 1.1 <= V * dbl 0.3).
    { eapply Qcle_trans; [apply le_div_11; apply H|apply H]. }
    pose proof (proj2 (H i)). destruct axis, i; cbn in *; assumption. }
  destruct (Qltb _ (of_int _)); [|apply H].
  cbn [volumeScale with_volumeScale with_numAttempted with_numAccepted].
  pose proof (proj1 (proj2 (std_min_spec (get (volumeScale st) axis * dbl 1.1)
                                         (V * dbl 0.3)))) as L.
  pose proof (proj2 (H i)). destruct axis, i; cbn in *; assumption.
Qed.

(** One trial at constant volume, from a state that satisfies the
    invariant. *)
Lemma constant_volume_trialOn V0 axis r st ctx :
  getZMode owner = ConstantVolume ->
  (forall x, 0 < x -> 0 < sqrt x) ->
  0 < V0 ->
  boxVolume (boxVectors ctx) = V0 ->
  0 < get (volumeScale st) axis ->
  get (volumeScale st) axis <= V0 * dbl 0.3 ->
  0 <= draws r (pos r) -> draws r (pos r) < 1 ->
  let t := trialOn axis r st ctx in
  boxVolume (boxVectors (t_context t)) = V0 /\ t_volume t = V0.
Proof.
  intros Z S P V A B U0 U1. subst V0.
  destruct (trialOn_fields axis r st ctx)
    as (_ & _ & _ & Hp & _ & _ & _ & Hv & Hc & _).
  cbv zeta. rewrite Hv, Hc. cbn [genrand_real2 fst] in *.
  set (p := propose (boxVectors ctx) (get (volumeScale st) axis) axis
                    (draws r (pos r))) in *.
  destruct (propose_constant_volume (boxVectors ctx)
              (get (volumeScale st) axis) axis (draws r (pos r)) Z)
    as (E2 & _ & EN).
  fold p in E2, EN.
  split; [|destruct (t_rejected _); [exact EN|reflexivity]].
  destruct (t_rejected _); [reflexivity|].
  unfold applyProposal. cbn [boxVectors setPeriodicBoxVectors callKernel].
  apply scaledBox_volume; [|exact E2].
  pose proof (propose_lateral_positive (boxVectors ctx)
                (get (volumeScale st) axis) axis (draws r (pos r))
                S P A B U0 U1) as L.
  cbv zeta in L. fold p in L. intro Q. rewrite Q in L. discriminate.
Qed.

Lemma constant_volume_update V0 fuel st ctx st' ctx' :
  getZMode owner = ConstantVolume ->
  (forall x, 0 < x -> 0 < sqrt x) ->
  0 < V0 ->
  constant_volume_invariant V0 st ctx ->
  updateContextState fuel st ctx = Some (st', ctx') ->
  constant_volume_invariant V0 st' ctx'.
Proof.
  intros Z S P (IV & IA & IR) U.
  apply updateContextState_cases in U
    as [(_ & -> & ->) | (_ & t & T & -> & ->)];
    [split; [exact IV|split; [exact IA|exact IR]]|].
  apply trial_Some in T as (axis & r & C & ->).
  apply chooseAxis_draws in C as [D _]. cbn [random with_step] in D.
  destruct (constant_volume_trialOn V0 axis r (with_step st 0) ctx Z S P IV
              (proj1 (IA axis)) (proj2 (IA axis)))
    as [TV TL].
  { rewrite D. apply IR. }
  { rewrite D. apply IR. }
  destruct (trialOn_fields axis r (with_step st 0) ctx)
    as (Ha & _ & _ & _ & _ & Hg & _ & _ & _ & _ & Hvs & Hr & _).
  set (t := trialOn axis r (with_step st 0) ctx) in *.
  split; [exact TV|]. split.
  - rewrite TL, Ha. apply tune_capped; [exact P|].
    rewrite Hvs. exact IA.
  - destruct (tune_frame (t_axis t) (t_volume t) (t_state t)) as (_ & -> & _).
    rewrite Hr, rejects_draws, Hg. cbn [genrand_real2 snd draws].
    rewrite D. exact IR.
Qed.

Lemma constant_volume_reachable ctx0 st ctx :
  getZMode owner = ConstantVolume ->
  (forall x, 0 < x -> 0 < sqrt x) ->
  (forall seed n, 0 <= init_gen_rand seed n /\ init_gen_rand seed n < 1) ->
  0 < boxVolume (boxVectors ctx0) ->
  reachable any_call ctx0 st ctx ->
  constant_volume_invariant (boxVolume (boxVectors ctx0)) st ctx.
Proof.
  intros Z S G P R.
  induction R as [|st ctx fuel st' ctx' R IH _ U].
  - split; [reflexivity|]. split.
    + intro i.
      assert (A : 0 < dbl 0.01 * boxVolume (boxVectors ctx0) /\
                  dbl 0.01 * boxVolume (boxVectors ctx0)
                  <= boxVolume (boxVectors ctx0) * dbl 0.3)
        by (clear S G; split; qc2q; lra).
      destruct i; exact A.
    + intro n. apply G.
  - exact (constant_volume_update _ fuel st ctx st' ctx' Z S P IH U).
Qed.


(* ------------------------------------------------------------------ *)
(** ** Further properties of the barostat *)

(** *** The step counter *)

Lemma with_step_same st : with_step st (step st) = st.
Proof. destruct st; reflexivity. Qed.

Lemma run_counts fuel ctx n : forall st,
  (step st + Z.of_nat n < getFrequency owner)%Z ->
  run n fuel st ctx = Some (with_step st (step st + Z.of_nat n), ctx).
Proof.
  induction n as [|n IH]; intros st L.
  - cbn [run Z.of_nat]. rewrite Z.add_0_r, with_step_same. reflexivity.
  - cbn [run]. unfold updateContextState. cbn [step with_step].
    destruct (Z.ltb_spec (step st + 1) (getFrequency owner)) as [_|G]; [|lia].
    cbn [orb]. rewrite IH; cbn [step with_step]; [|lia].
    replace (step st + Z.of_nat (S n))%Z with (step st + 1 + Z.of_nat n)%Z
      by lia.
    reflexivity.
Qed.

(** X1.  With a frequency [f > 0], from a state whose step counter is
    0: the first [f-1] calls only count, they leave the context and
    every other member of the state alone; the call that follows runs a
    trial; and a call that runs a trial leaves the step counter at 0,
    so that the cycle starts again. *)
Theorem trial_every_frequency_calls fuel st ctx :
  (0 < getFrequency owner)%Z ->
  step st = 0%Z ->
  (forall n, (Z.of_nat n < getFrequency owner)%Z ->
     run n fuel st ctx = Some (with_step st (Z.of_nat n), ctx) /\
     (runsTrial (with_step st (Z.of_nat n)) = true <->
      (Z.of_nat n + 1 = getFrequency owner)%Z)) /\
  (forall s c s' c',
     runsTrial s = true ->
     updateContextState fuel s c = Some (s', c') -> step s' = 0%Z).
Proof.
  intros F S. split.
  - intros n L. split.
    + rewrite run_counts; rewrite S; [reflexivity|lia].
    + unfold runsTrial. cbn [step with_step].
      destruct (Z.ltb_spec (Z.of_nat n + 1) (getFrequency owner));
        destruct (Z.eqb_spec (getFrequency owner) 0); cbn; split;
          intro; try discriminate; try reflexivity; lia.
  - intros s c s' c' R U.
    apply updateContextState_cases in U
      as [(N & _) | (_ & t & T & -> & _)]; [congruence|].
    apply trial_Some in T as (axis & r & _ & ->).
    destruct (tune_frame axis
                (t_volume (trialOn axis r (with_step s 0) c))
                (t_state (trialOn axis r (with_step s 0) c))) as (E & _).
    destruct (trialOn_fields axis r (with_step s 0) c)
      as (Ha & _ & _ & _ & _ & _ & _ & _ & _ & Hs & _).
    rewrite Ha, E, Hs. reflexivity.
Qed.


(** *** What a call does to the context *)

(** X3.  A call never changes the pressure, the surface tension or the
    number of molecules of the context, and it does one of three things
    to the rest: nothing (no trial); or one [scaleCoordinates] on the
    kernel, the box vectors becoming those of the move (trial
    accepted); or [scaleCoordinates] followed by [restoreCoordinates],
    the box vectors being left as they were (trial rejected).  The
    kernel is never asked to restore what it was not first asked to
    scale. *)
Theorem call_frame fuel st ctx st' ctx' :
  updateContextState fuel st ctx = Some (st', ctx') ->
  paramPressure ctx' = paramPressure ctx /\
  paramSurfaceTension ctx' = paramSurfaceTension ctx /\
  numMolecules ctx' = numMolecules ctx /\
  ((runsTrial st = false /\ ctx' = ctx) \/
   (exists s : Arr3 Qc,
      runsTrial st = true /\
      kernelCalls ctx'
      = KScaleCoordinates (el0 s) (el1 s) (el2 s) :: kernelCalls ctx /\
      boxVectors ctx' = scaledBox (boxVectors ctx) s) \/
   (exists s : Arr3 Qc,
      runsTrial st = true /\
      kernelCalls ctx'
      = KRestoreCoordinates
          :: KScaleCoordinates (el0 s) (el1 s) (el2 s) :: kernelCalls ctx /\
      boxVectors ctx' = boxVectors ctx)).
Proof.
  intro U.
  apply updateContextState_cases in U
    as [(N & _ & ->) | (R & t & T & _ & ->)].
  { repeat split. left. split; [exact N|reflexivity]. }
  apply trial_Some in T as (axis & r & _ & ->).
  destruct (trialOn_fields axis r (with_step st 0) ctx)
    as (_ & _ & _ & _ & _ & _ & _ & _ & Hc & _).
  rewrite Hc.
  destruct (t_rejected _); cbn; repeat split; right; [right|left];
    eexists; repeat split; exact R.
Qed.

(** *** What a call does to the generator *)

(** X4.  A call never replaces the sequence of the generator and never
    moves it backwards; a call that runs no trial leaves the generator
    as it is, and a call that runs a trial draws at least two variates,
    one for the axis and one for the move. *)
Theorem generator_only_advances fuel st ctx st' ctx' :
  updateContextState fuel st ctx = Some (st', ctx') ->
  draws (random st') = draws (random st) /\
  (pos (random st) <= pos (random st'))%nat /\
  (runsTrial st = false -> random st' = random st) /\
  (runsTrial st = true -> (pos (random st) + 2 <= pos (random st'))%nat).
Proof.
  intro U.
  apply updateContextState_cases in U
    as [(N & -> & _) | (R & t & T & -> & _)].
  { cbn [random with_step]. repeat split; try lia. congruence. }
  apply trial_Some in T as (axis & r & C & ->).
  apply chooseAxis_draws in C as [D P]. cbn [random with_step] in D, P.
  destruct (trialOn_fields axis r (with_step st 0) ctx)
    as (Ha & _ & _ & _ & _ & Hg & _ & _ & _ & _ & _ & Hr & _).
  set (t := trialOn axis r (with_step st 0) ctx) in *.
  destruct (tune_frame (t_axis t) (t_volume t) (t_state t)) as (_ & -> & _).
  rewrite Hr, Hg. unfold rejects. cbn [genrand_real2 snd].
  destruct (Qltb (dbl 0) (t_w t)); cbn [snd draws pos];
    (split; [exact D|]); (split; [lia|]); (split; [congruence|]);
    intros _; lia.
Qed.

(** The loop returns the same axis whatever the iterations it is allowed
    beyond those it needs. *)
Lemma chooseAxis_more_fuel fuel : forall r x fuel',
  chooseAxis fuel r = Some x -> (fuel <= fuel')%nat ->
  chooseAxis fuel' r = Some x.
Proof.
  induction fuel as [|fuel IH]; intros r x fuel' H L; [discriminate|].
  destruct fuel' as [|fuel']; [lia|].
  rewrite chooseAxis_unfold in *. cbv zeta in *.
  destruct (Qltb _ (dbl 1.0)); [exact H|].
  destruct (Qltb _ (dbl 2.0)); [exact H|].
  destruct (ZMode_eqb _ _); [exact H|].
  apply (IH _ _ _ H). lia.
Qed.

(** X5.  The loop is a rejection sampling: when it returns, it has
    skipped [k] variates, each at 2/3 or above with the normal axis not
    free, and it returns on the next one, [u]: axis 0 when [3u < 1];
    when [1 <= 3u < 2], axis 0 under [XYIsotropic] and axis 1
    otherwise; axis 2 when [3u >= 2], the normal axis being free.  The
    generator has advanced by [k+1], and allowing the loop more
    iterations does not change what it returns. *)
Theorem chooseAxis_first_valid fuel : forall r a r',
  chooseAxis fuel r = Some (a, r') ->
  (exists k,
     (k < fuel)%nat /\
     r' = mkRng (draws r) (pos r + k + 1) /\
     (forall j, (j < k)%nat ->
                dbl 2.0 <= draws r (pos r + j) * dbl 3.0 /\
                getZMode owner <> ZFree) /\
     let rnd := draws r (pos r + k) * dbl 3.0 in
     (rnd < dbl 1.0 -> a = Axis0) /\
     (dbl 1.0 <= rnd -> rnd < dbl 2.0 ->
      a = if XYMode_eqb (getXYMode owner) XYIsotropic
          then Axis0 else Axis1) /\
     (dbl 2.0 <= rnd -> a = Axis2 /\ getZMode owner = ZFree)) /\
  (forall fuel', (fuel <= fuel')%nat -> chooseAxis fuel' r = Some (a, r')).
Proof.
  intros r a r' H. split; [|intros; eapply chooseAxis_more_fuel; eauto].
  revert r a r' H.
  induction fuel as [|fuel IH]; intros r a r' H; [discriminate|].
  rewrite chooseAxis_unfold in H. cbv zeta in H.
  destruct (Qltb _ (dbl 1.0)) eqn:E1.
  { injection H as <- <-. exists 0%nat. rewrite !Nat.add_0_r.
    apply Qltb_lt in E1.
    split; [lia|]. split; [f_equal; lia|]. split; [intros; lia|].
    cbv zeta. split; [reflexivity|].
    split; intros G; exfalso; [exact (Qcle_not_lt _ _ G E1)|].
    eapply Qcle_not_lt; [exact G|].
    eapply Qclt_trans; [exact E1|reflexivity]. }
  destruct (Qltb _ (dbl 2.0)) eqn:E2.
  { injection H as <- <-. exists 0%nat. rewrite !Nat.add_0_r.
    apply Qltb_ge in E1. apply Qltb_lt in E2.
    split; [lia|]. split; [f_equal; lia|]. split; [intros; lia|].
    cbv zeta. split; [intro G; exfalso; exact (Qcle_not_lt _ _ E1 G)|].
    split; [reflexivity|].
    intro G; exfalso; exact (Qcle_not_lt _ _ G E2). }
  destruct (ZMode_eqb _ _) eqn:EZ.
  { injection H as <- <-. exists 0%nat. rewrite !Nat.add_0_r.
    apply Qltb_ge in E1, E2. apply ZMode_eqb_eq in EZ.
    split; [lia|]. split; [f_equal; lia|]. split; [intros; lia|].
    cbv zeta. split; [intro G; exfalso; exact (Qcle_not_lt _ _ E1 G)|].
    split; [intros _ G; exfalso; exact (Qcle_not_lt _ _ E2 G)|].
    intros _. split; [reflexivity|exact EZ]. }
  apply IH in H as (k & L & -> & Skip & V). cbn [draws pos] in *.
  exists (S k). split; [lia|].
  split; [f_equal; lia|]. split.
  - intros j J. destruct j as [|j].
    + rewrite Nat.add_0_r. apply Qltb_ge in E2. split; [exact E2|].
      intro Z. apply ZMode_eqb_eq in Z. congruence.
    + rewrite <- Nat.add_succ_comm. apply Skip. lia.
  - rewrite <- Nat.add_succ_comm. exact V.
Qed.

(** *** The geometry of a move *)

(** The scales of a move, by cases on the modes. *)
Lemma propose_scales box scale axis u :
  let p := propose box scale axis u in
  let ratio := (boxVolume box + scale * dbl 2 * (u - dbl 0.5))
               / boxVolume box in
  let lateral :=
    if (Axis_eqb axis Axis0 || Axis_eqb axis Axis1)
       && XYMode_eqb (getXYMode owner) XYIsotropic
    then mkArr3 (sqrt ratio) (sqrt ratio) (dbl 1.0)
    else put (mkArr3 (dbl 1.0) (dbl 1.0) (dbl 1.0)) axis ratio in
  get (lengthScale p) Axis0 = get lateral Axis0 /\
  get (lengthScale p) Axis1 = get lateral Axis1 /\
  get (lengthScale p) Axis2
  = (if ZMode_eqb (getZMode owner) ConstantVolume
     then dbl 1.0 / (get lateral Axis0 * get lateral Axis1)
     else get lateral Axis2) /\
  deltaVolume p
  = (if ZMode_eqb (getZMode owner) ConstantVolume
     then dbl 0 else scale * dbl 2 * (u - dbl 0.5)) /\
  newVolume p
  = (if ZMode_eqb (getZMode owner) ConstantVolume
     then boxVolume box
     else boxVolume box + scale * dbl 2 * (u - dbl 0.5)).
Proof.
  unfold propose. cbv zeta.
  destruct (ZMode_eqb (getZMode owner) ConstantVolume);
    destruct ((Axis_eqb axis Axis0 || Axis_eqb axis Axis1)
              && XYMode_eqb (getXYMode owner) XYIsotropic);
    cbn [lengthScale deltaVolume newVolume];
    try (repeat split; fail);
    destruct axis; repeat split.
Qed.

(** X6.  The change of volume that a move proposes is within the
    amplitude of its axis: for a variate [u] in [0, 1) and an amplitude
    that is not negative, [-scale <= deltaVolume <= scale]; and
    [newVolume] is the volume of the box plus [deltaVolume], with or
    without the [ConstantVolume] override. *)
Theorem deltaVolume_within_amplitude box scale axis u :
  0 <= scale -> 0 <= u -> u < 1 ->
  let p := propose box scale axis u in
  - scale <= deltaVolume p /\
  deltaVolume p <= scale /\
  newVolume p = boxVolume box + deltaVolume p.
Proof.
  intros S U0 U1 p.
  destruct (propose_scales box scale axis u) as (_ & _ & _ & D & N).
  fold p in D, N. rewrite D, N.
  clear D N p sqrt exp log potentialEnergy init_gen_rand osrngseed.
  destruct (ZMode_eqb (getZMode owner) ConstantVolume).
  - split; [|split].
    + qc2q. lra.
    + qc2q. lra.
    + unfold dbl. ring.
  - split; [|split; [|reflexivity]]; qc2q; nra.
Qed.

(** X7.  In exact arithmetic, [deltaArea] is the change of the lateral
    area between the box before the move and the box that the move
    installs (doubles round the two products in different orders, and
    the two numbers can differ in their last digits); a move on axis 2
    has a [deltaArea] of 0. *)
Theorem deltaArea_is_area_change box scale axis u :
  let p := propose box scale axis u in
  deltaArea p
  = lateralArea (scaledBox box (lengthScale p)) - lateralArea box /\
  (axis = Axis2 -> deltaArea p = 0).
Proof.
  intro p.
  assert (A : deltaArea p
              = el0 (el0 box) * get (lengthScale p) Axis0
                * el1 (el1 box) * get (lengthScale p) Axis1
                - el0 (el0 box) * el1 (el1 box)).
  { unfold p, propose. cbv zeta.
    destruct (ZMode_eqb (getZMode owner) ConstantVolume); reflexivity. }
  split.
  - rewrite A. unfold lateralArea, scaledBox, Vec3_scale.
    cbn [el0 el1 get]. ring.
  - intros ->. rewrite A.
    destruct (propose_scales box scale Axis2 u) as (E0 & E1 & _).
    fold p in E0, E1. rewrite E0, E1. cbn [Axis_eqb orb andb put get el0 el1].
    rewrite dbl_one. ring.
Qed.

(** X8.  When the move is on an axis of its own ([XYAnisotropic], or
    axis 2) and the normal axis is not at [ConstantVolume], the box that
    the move installs has exactly the volume [newVolume], provided the
    volume of the box before the move is not 0. *)
Theorem installed_volume_is_newVolume box scale axis u :
  getZMode owner <> ConstantVolume ->
  getXYMode owner = XYAnisotropic \/ axis = Axis2 ->
  boxVolume box <> 0 ->
  let p := propose box scale axis u in
  boxVolume (scaledBox box (lengthScale p)) = newVolume p.
Proof.
  intros Z I V p.
  destruct (propose_scales box scale axis u) as (E0 & E1 & E2 & _ & N).
  fold p in E0, E1, E2, N.
  assert (ZF : ZMode_eqb (getZMode owner) ConstantVolume = false).
  { destruct (ZMode_eqb _ _) eqn:E; [|reflexivity].
    apply ZMode_eqb_eq in E. contradiction. }
  assert (IF : (Axis_eqb axis Axis0 || Axis_eqb axis Axis1)
               && XYMode_eqb (getXYMode owner) XYIsotropic = false).
  { destruct I as [-> | ->]; [apply andb_false_r|reflexivity]. }
  rewrite ZF in E2, N. rewrite IF in E0, E1, E2.
  unfold boxVolume, scaledBox, Vec3_scale in *. cbn [el0 el1 el2 get] in *.
  rewrite N, E0, E1, E2.
  destruct axis; cbn [put get el0 el1 el2]; rewrite dbl_one; field;
    repeat split; intro H0; apply V; rewrite H0; ring.
Qed.

(** A vector scaled by 1 is the same vector. *)
Lemma Vec3_scale_one (v : Vec3) : Vec3_scale v (dbl 1.0) = v.
Proof.
  destruct v as [x y z]. unfold Vec3_scale. cbn [el0 el1 el2].
  rewrite dbl_one, !Qcmult_1_r. reflexivity.
Qed.

(** X9.  Under [XYAnisotropic], with the normal axis not at
    [ConstantVolume], a move changes one box vector only, that of its
    axis; under [XYIsotropic] the two lateral scales of any move are
    equal; and with the normal axis at [ZFixed] a move on a lateral
    axis leaves the third box vector as it is. *)
Theorem move_scales_its_axis box scale axis u :
  let p := propose box scale axis u in
  (getXYMode owner = XYAnisotropic ->
   getZMode owner <> ConstantVolume ->
   forall b, b <> axis ->
             get (scaledBox box (lengthScale p)) b = get box b) /\
  (getXYMode owner = XYIsotropic ->
   get (lengthScale p) Axis0 = get (lengthScale p) Axis1) /\
  (getZMode owner = ZFixed -> axis <> Axis2 ->
   get (scaledBox box (lengthScale p)) Axis2 = get box Axis2).
Proof.
  intro p.
  destruct (propose_scales box scale axis u) as (E0 & E1 & E2 & _).
  fold p in E0, E1, E2.
  split; [|split].
  - intros A Z b B.
    assert (ZF : ZMode_eqb (getZMode owner) ConstantVolume = false).
    { destruct (ZMode_eqb _ _) eqn:E; [|reflexivity].
      apply ZMode_eqb_eq in E. contradiction. }
    rewrite ZF in E2. rewrite A, andb_false_r in E0, E1, E2.
    unfold scaledBox. cbn [get] in *.
    destruct axis, b; try congruence; cbn [get el0 el1 el2 put] in *;
      rewrite ?E0, ?E1, ?E2; apply Vec3_scale_one.
  - intro I. rewrite E0, E1, I.
    destruct axis; reflexivity.
  - intros Z A. rewrite Z in E2. cbn [ZMode_eqb] in E2.
    unfold scaledBox. cbn [get el2] in *. rewrite E2.
    destruct (_ && _); [apply Vec3_scale_one|].
    destruct axis; try congruence; apply Vec3_scale_one.
Qed.

(** *** What a simulation keeps *)

(** The box after a call: the one before it, or the one the move
    installs. *)
Lemma update_box fuel st ctx st' ctx' :
  updateContextState fuel st ctx = Some (st', ctx') ->
  boxVectors ctx' = boxVectors ctx \/
  exists axis u,
    (exists r fuel', chooseAxis fuel' r = Some (axis, u)) /\
    boxVectors ctx'
    = scaledBox (boxVectors ctx)
        (lengthScale (propose (boxVectors ctx) (get (volumeScale st) axis)
                              axis (fst (genrand_real2 u)))).
Proof.
  intro U.
  apply updateContextState_cases in U
    as [(_ & _ & ->) | (_ & t & T & _ & ->)]; [left; reflexivity|].
  apply trial_Some in T as (axis & r & C & ->).
  destruct (trialOn_fields axis r (with_step st 0) ctx)
    as (_ & _ & _ & _ & _ & _ & _ & _ & Hc & _).
  rewrite Hc. destruct (t_rejected _); [left; reflexivity|].
  right. exists axis, r. split; [eauto|reflexivity].
Qed.

(** Under [XYIsotropic] a call that changes the box scales the two
    lateral box vectors by one and the same number. *)
Lemma isotropic_update_box fuel st ctx st' ctx' :
  getXYMode owner = XYIsotropic ->
  updateContextState fuel st ctx = Some (st', ctx') ->
  boxVectors ctx' = boxVectors ctx \/
  exists s : Arr3 Qc,
    boxVectors ctx' = scaledBox (boxVectors ctx) s /\ el0 s = el1 s.
Proof.
  intros I U.
  apply update_box in U as [-> | (axis & u & _ & ->)]; [left; reflexivity|].
  right.
  destruct (propose_scales (boxVectors ctx) (get (volumeScale st) axis)
              axis (fst (genrand_real2 u))) as (E0 & E1 & _).
  eexists. split; [reflexivity|].
  cbn [get] in E0, E1. rewrite E0, E1, I.
  destruct axis; reflexivity.
Qed.

(** X10.  Under [XYIsotropic] every call leaves the box vectors as they
    were or multiplies the two lateral edges, [box[0][0]] and
    [box[1][1]], by one and the same scale; hence, in exact arithmetic,
    a simulation keeps the proportion of the two lateral edges: in
    every state reached from [initialize], [box[0][0]] is to
    [box[1][1]] as it was at [initialize].  (In doubles each of the two
    products is rounded, and the proportion holds up to that rounding
    only.) *)
Theorem isotropic_keeps_lateral_proportion ctx0 st ctx :
  getXYMode owner = XYIsotropic ->
  reachable any_call ctx0 st ctx ->
  el0 (el0 (boxVectors ctx)) * el1 (el1 (boxVectors ctx0))
  = el0 (el0 (boxVectors ctx0)) * el1 (el1 (boxVectors ctx)) /\
  forall fuel st' ctx',
    updateContextState fuel st ctx = Some (st', ctx') ->
    boxVectors ctx' = boxVectors ctx \/
    exists scale,
      el0 (el0 (boxVectors ctx')) = el0 (el0 (boxVectors ctx)) * scale /\
      el1 (el1 (boxVectors ctx')) = el1 (el1 (boxVectors ctx)) * scale.
Proof.
  intros I R. split.
  - induction R as [|st ctx fuel st' ctx' R IH _ U].
    + cbn. ring.
    + apply (isotropic_update_box fuel st ctx st' ctx' I) in U
        as [-> | (s & -> & E)]; [exact IH|].
      unfold scaledBox, Vec3_scale. cbn [el0 el1]. rewrite E.
      transitivity (el0 (el0 (boxVectors ctx)) * el1 (el1 (boxVectors ctx0))
                    * el1 s); [ring|].
      rewrite IH. ring.
  - intros fuel st' ctx' U.
    apply (isotropic_update_box fuel st ctx st' ctx' I) in U
      as [-> | (s & -> & E)]; [left; reflexivity|].
    right. exists (el1 s). unfold scaledBox, Vec3_scale. cbn [el0 el1].
    rewrite E. split; reflexivity.
Qed.

Lemma nonfree_update fuel st ctx st' ctx' :
  getZMode owner <> ZFree ->
  updateContextState fuel st ctx = Some (st', ctx') ->
  get (volumeScale st') Axis2 = get (volumeScale st) Axis2 /\
  get (numAttempted st') Axis2 = get (numAttempted st) Axis2 /\
  get (numAccepted st') Axis2 = get (numAccepted st) Axis2.
Proof.
  intros Z H.
  apply updateContextState_cases in H
    as [(_ & -> & _) | (_ & t & T & -> & _)]; [repeat split|].
  apply trial_Some in T as (axis & r & C & ->).
  apply chooseAxis_valid in C as [C _].
  assert (A : axis <> Axis2) by (intro E; apply Z, C, E).
  pose proof (trialOn_fields axis r (with_step st 0) ctx) as F.
  cbv zeta in F.
  destruct F
    as (Ha & _ & _ & _ & _ & _ & _ & _ & _ & _ & Hvs & _ & Hatt & Hacc).
  set (t := trialOn axis r (with_step st 0) ctx) in *.
  destruct (tune_frame (t_axis t) (t_volume t) (t_state t)) as (_ & _ & Fr).
  rewrite Ha in *.
  destruct (Fr Axis2) as (-> & -> & ->); [congruence|].
  rewrite Hvs, Hatt, Hacc. cbn [volumeScale numAttempted numAccepted with_step].
  repeat split.
  - apply get_put_other. exact A.
  - destruct (t_rejected t); [reflexivity|]. apply get_put_other. exact A.
Qed.

(** X11.  When the normal axis is not free, no trial is ever made on
    axis 2: in every state reached from [initialize] the members of
    index 2 are as [initialize] left them; and with the normal axis at
    [ZFixed] the third box vector is the one of [initialize]. *)
Theorem nonfree_normal_axis_untouched ctx0 st ctx :
  getZMode owner <> ZFree ->
  reachable any_call ctx0 st ctx ->
  get (numAttempted st) Axis2 = 0%Z /\
  get (numAccepted st) Axis2 = 0%Z /\
  get (volumeScale st) Axis2 = dbl 0.01 * boxVolume (boxVectors ctx0) /\
  (getZMode owner = ZFixed ->
   get (boxVectors ctx) Axis2 = get (boxVectors ctx0) Axis2).
Proof.
  intros Z R. induction R as [|st ctx fuel st' ctx' R IH _ U].
  - cbn. repeat split.
  - destruct IH as (I1 & I2 & I3 & I4).
    destruct (nonfree_update fuel st ctx st' ctx' Z U) as (-> & -> & ->).
    repeat split; try assumption.
    intro F. rewrite <- (I4 F).
    apply update_box in U as [-> | (axis & u & (r & fuel' & C) & ->)];
      [reflexivity|].
    apply chooseAxis_valid in C as [C _].
    assert (A : axis <> Axis2) by (intro E; apply Z, C, E).
    destruct (propose_scales (boxVectors ctx) (get (volumeScale st) axis)
                axis (fst (genrand_real2 u))) as (_ & _ & E2 & _).
    rewrite F in E2. cbn [ZMode_eqb] in E2.
    unfold scaledBox. cbn [get el2] in *. rewrite E2.
    destruct (_ && _); [apply Vec3_scale_one|].
    destruct axis; try congruence; apply Vec3_scale_one.
Qed.

Lemma Axis_eq_dec (a b : Axis) : {a = b} + {a <> b}.
Proof. decide equality. Qed.

(** The tuning on [axis] brings that axis into the band, whatever its
    counters were. *)
Lemma tune_in_band axis volume st :
  (forall i, i <> axis ->
     (10 <= get (numAttempted st) i)%Z ->
     (get (numAttempted st) i <= 4 * get (numAccepted st) i)%Z /\
     (4 * get (numAccepted st) i <= 3 * get (numAttempted st) i)%Z) ->
  ratio_in_band (tune axis volume st).
Proof.
  intros H i. unfold tune.
  destruct (Z.leb_spec 10 (get (numAttempted st) axis)) as [G|G].
  2: { destruct (Axis_eq_dec i axis) as [->|N]; [lia|apply H, N]. }
  destruct (Qltb (of_int _) _) eqn:B.
  { cbn [numAttempted numAccepted with_volumeScale with_numAttempted
         with_numAccepted].
    destruct (Axis_eq_dec i axis) as [->|N].
    - rewrite !get_put_same. lia.
    - rewrite !get_put_other by congruence. apply H, N. }
  destruct (Qltb _ (of_int _)) eqn:A.
  { cbn [numAttempted numAccepted with_volumeScale with_numAttempted
         with_numAccepted].
    destruct (Axis_eq_dec i axis) as [->|N].
    - rewrite !get_put_same. lia.
    - rewrite !get_put_other by congruence. apply H, N. }
  destruct (Axis_eq_dec i axis) as [->|N]; [|apply H, N].
  intros _.
  assert (NB : ~ (4 * get (numAccepted st) axis
                  < get (numAttempted st) axis)%Z).
  { intro X. apply below_quarter, Qltb_lt in X. congruence. }
  assert (NA : ~ (3 * get (numAttempted st) axis
                  < 4 * get (numAccepted st) axis)%Z).
  { intro X. apply above_three_quarters, Qltb_lt in X. congruence. }
  lia.
Qed.


(** X13.  A call writes the members of one axis at most: there is an
    axis such that the amplitude and the two counters of every other
    axis are after the call what they were before it.  When the call
    runs a trial, the attempt count of that axis is either one more
    than before, or 0 with the acceptance count, the tuning having
    reset them. *)
Theorem one_axis_per_call fuel st ctx st' ctx' :
  updateContextState fuel st ctx = Some (st', ctx') ->
  exists axis,
    (forall b, b <> axis ->
       get (volumeScale st') b = get (volumeScale st) b /\
       get (numAttempted st') b = get (numAttempted st) b /\
       get (numAccepted st') b = get (numAccepted st) b) /\
    (runsTrial st = true ->
     get (numAttempted st') axis = (get (numAttempted st) axis + 1)%Z \/
     (get (numAttempted st') axis = 0%Z /\
      get (numAccepted st') axis = 0%Z)).
Proof.
  intro U.
  apply updateContextState_cases in U
    as [(N & -> & _) | (_ & t & T & -> & _)].
  { exists Axis0. split; [repeat split|congruence]. }
  apply trial_Some in T as (axis & r & _ & ->).
  destruct (trialOn_fields axis r (with_step st 0) ctx)
    as (Ha & _ & _ & _ & _ & _ & _ & _ & _ & _ & Hvs & _ & Hatt & Hacc).
  set (t := trialOn axis r (with_step st 0) ctx) in *.
  rewrite Ha. exists axis. split.
  - intros b B.
    destruct (tune_frame axis (t_volume t) (t_state t)) as (_ & _ & Fr).
    destruct (Fr b B) as (-> & -> & ->).
    rewrite Hvs, Hatt, Hacc.
    cbn [volumeScale numAttempted numAccepted with_step].
    repeat split.
    + apply get_put_other. congruence.
    + destruct (t_rejected t); [reflexivity|].
      apply get_put_other. congruence.
  - intros _.
    assert (N : get (numAttempted (t_state t)) axis
                = (get (numAttempted st) axis + 1)%Z)
      by (rewrite Hatt; apply get_put_same).
    unfold tune.
    destruct (10 <=? _)%Z; [|left; exact N].
    destruct (Qltb (of_int _) _);
      [right;
       cbn [numAttempted numAccepted with_volumeScale with_numAttempted
            with_numAccepted];
       rewrite !get_put_same; split; reflexivity|].
    destruct (Qltb _ (of_int _));
      [right;
       cbn [numAttempted numAccepted with_volumeScale with_numAttempted
            with_numAccepted];
       rewrite !get_put_same; split; reflexivity|].
    left; exact N.
Qed.

Lemma le_times_11 (v : Qc) :
  0 <= v -> v <= v * dbl 1.1 /\ v / dbl 1.1 <= v * dbl 1.1.
Proof.
  intro H. split; qc2q;
    [|setoid_replace (/ 1.1)%Q with (10 # 11)%Q by reflexivity]; lra.
Qed.

(** X14.  A call never raises an amplitude by more than 10%: for every
    axis whose amplitude is not negative, the amplitude after the call
    is at most 1.1 times the amplitude before it. *)
Theorem amplitude_growth_bounded fuel st ctx st' ctx' :
  updateContextState fuel st ctx = Some (st', ctx') ->
  forall i, 0 <= get (volumeScale st) i ->
            get (volumeScale st') i <= get (volumeScale st) i * dbl 1.1.
Proof.
  intros U i P. destruct (le_times_11 _ P) as [L1 L2].
  apply updateContextState_cases in U
    as [(_ & -> & _) | (_ & t & T & -> & _)]; [exact L1|].
  apply trial_Some in T as (axis & r & _ & ->).
  destruct (trialOn_fields axis r (with_step st 0) ctx)
    as (Ha & _ & _ & _ & _ & _ & _ & _ & _ & _ & Hvs & _).
  set (t := trialOn axis r (with_step st 0) ctx) in *.
  rewrite Ha.
  destruct (Axis_eq_dec i axis) as [->|N].
  2: { destruct (tune_frame axis (t_volume t) (t_state t)) as (_ & _ & Fr).
       destruct (Fr i N) as (-> & _). rewrite Hvs. exact L1. }
  unfold tune.
  destruct (10 <=? _)%Z; [|rewrite Hvs; exact L1].
  destruct (Qltb (of_int _) _).
  { cbn [volumeScale with_volumeScale with_numAttempted with_numAccepted].
    rewrite get_put_same, Hvs. exact L2. }
  destruct (Qltb _ (of_int _)); [|rewrite Hvs; exact L1].
  cbn [volumeScale with_volumeScale with_numAttempted with_numAccepted].
  rewrite get_put_same, Hvs. apply std_min_spec.
Qed.

(** X15.  At [ConstantVolume], on a box of positive volume (the
    generator yielding variates in [0, 1), and [sqrt] being positive on
    the positive numbers), a simulation never changes the volume of the
    box, and every amplitude stays positive and at most 30% of that
    volume. *)
Theorem constant_volume_run ctx0 st ctx :
  getZMode owner = ConstantVolume ->
  (forall x, 0 < x -> 0 < sqrt x) ->
  (forall seed n, 0 <= init_gen_rand seed n /\ init_gen_rand seed n < 1) ->
  0 < boxVolume (boxVectors ctx0) ->
  reachable any_call ctx0 st ctx ->
  boxVolume (boxVectors ctx) = boxVolume (boxVectors ctx0) /\
  forall i, 0 < get (volumeScale st) i /\
            get (volumeScale st) i <= boxVolume (boxVectors ctx0) * dbl 0.3.
Proof.
  intros Z S G P R.
  destruct (constant_volume_reachable ctx0 st ctx Z S G P R) as (V & A & _).
  split; [exact V|exact A].
Qed.

Lemma update_draws fuel st ctx st' ctx' :
  updateContextState fuel st ctx = Some (st', ctx') ->
  draws (random st') = draws (random st).
Proof.
  intro U.
  apply updateContextState_cases in U
    as [(_ & -> & _) | (_ & t & T & -> & _)]; [reflexivity|].
  apply trial_Some in T as (axis & r & C & ->).
  apply chooseAxis_draws in C as [D _]. cbn [random with_step] in D.
  destruct (trialOn_fields axis r (with_step st 0) ctx)
    as (_ & _ & _ & _ & _ & Hg & _ & _ & _ & _ & _ & Hr & _).
  destruct (tune_frame (t_axis (trialOn axis r (with_step st 0) ctx))
              (t_volume (trialOn axis r (with_step st 0) ctx))
              (t_state (trialOn axis r (with_step st 0) ctx)))
    as (_ & -> & _).
  rewrite Hr, rejects_draws, Hg. exact D.
Qed.

(** X16.  The whole simulation draws from the one sequence that
    [initialize] seeded: the sequence of the owner's seed when that
    seed is not 0, the sequence of [osrngseed()] when it is.  The seed
    0 is handed to the generator only if [osrngseed()] returns it. *)
Theorem one_seeded_sequence ctx0 st ctx :
  reachable any_call ctx0 st ctx ->
  exists seed,
    draws (random st) = init_gen_rand seed /\
    (getRandomNumberSeed owner <> 0%Z -> seed = getRandomNumberSeed owner) /\
    (getRandomNumberSeed owner = 0%Z -> seed = osrngseed) /\
    (seed = 0%Z -> osrngseed = 0%Z).
Proof.
  intro R.
  exists (if (getRandomNumberSeed owner =? 0)%Z
          then osrngseed else getRandomNumberSeed owner).
  split.
  - induction R as [|st ctx fuel st' ctx' R IH _ U]; [reflexivity|].
    rewrite (update_draws fuel st ctx st' ctx' U). exact IH.
  - destruct (Z.eqb_spec (getRandomNumberSeed owner) 0) as [E|E];
      repeat split; intros; congruence.
Qed.

End Barostat.

(* ------------------------------------------------------------------ *)
(** ** Properties of the Reference Drude kernel factory *)

Section DrudeProperties.

Variables CalcDrudeForceKernel_Name IntegrateDrudeLangevinStepKernel_Name
  : string.
Variable PlatformData : Type.

Local Abbreviation createKernelImpl' :=
  (createKernelImpl CalcDrudeForceKernel_Name
                    IntegrateDrudeLangevinStepKernel_Name PlatformData).
Local Abbreviation initDrudeReferenceKernels' :=
  (initDrudeReferenceKernels CalcDrudeForceKernel_Name
                             IntegrateDrudeLangevinStepKernel_Name).
Local Abbreviation otherFactories' :=
  (otherFactories CalcDrudeForceKernel_Name
                  IntegrateDrudeLangevinStepKernel_Name).

Lemma lookupFactory_filter l name other :
  name <> other ->
  lookupFactory
    (filter (fun e => negb (String.eqb (fst e) other)) l) name
  = lookupFactory l name.
Proof.
  intro N. induction l as [|[n f] l IH]; [reflexivity|].
  cbn [filter fst lookupFactory].
  destruct (String.eqb_spec n other) as [->|D]; cbn [negb].
  - destruct (String.eqb_spec other name) as [E|_]; [congruence|exact IH].
  - cbn [lookupFactory]. rewrite IH. reflexivity.
Qed.

(** The two names that [initDrudeReferenceKernels] registers are
    registered to this factory. *)
Lemma initDrudeReferenceKernels_registers platform name :
  name = CalcDrudeForceKernel_Name \/
  name = IntegrateDrudeLangevinStepKernel_Name ->
  lookupFactory (kernelFactories (initDrudeReferenceKernels' platform)) name
  = Some ReferenceDrudeKernelFactory.
Proof.
  intro H. unfold initDrudeReferenceKernels, registerKernelFactory.
  cbn [kernelFactories lookupFactory].
  destruct (String.eqb_spec IntegrateDrudeLangevinStepKernel_Name name)
    as [E|D]; [reflexivity|].
  destruct H as [->| ->]; [|congruence].
  rewrite lookupFactory_filter by congruence.
  cbn [lookupFactory]. rewrite String.eqb_refl. reflexivity.
Qed.

(** C9.  [createKernelImpl] returns a kernel carrying the requested name
    when that name is [CalcDrudeForceKernel::Name()] (a
    [ReferenceCalcDrudeForceKernel]) or
    [IntegrateDrudeLangevinStepKernel::Name()] (a
    [ReferenceIntegrateDrudeLangevinStepKernel]), the two names that
    [initDrudeReferenceKernels] registers for this factory; for every
    other name it throws an [OpenMMException]. *)
Theorem createKernelImpl_spec (name : string) (platform : Platform)
        (context : ContextImpl PlatformData) :
  (name = CalcDrudeForceKernel_Name ->
   createKernelImpl' name platform context
   = Returns (ReferenceCalcDrudeForceKernel PlatformData name platform)) /\
  (name <> CalcDrudeForceKernel_Name ->
   name = IntegrateDrudeLangevinStepKernel_Name ->
   createKernelImpl' name platform context
   = Returns (ReferenceIntegrateDrudeLangevinStepKernel PlatformData
                name platform (getPlatformData PlatformData context))) /\
  (name = CalcDrudeForceKernel_Name \/
   name = IntegrateDrudeLangevinStepKernel_Name ->
   (exists k, createKernelImpl' name platform context = Returns k /\
              getName PlatformData k = name) /\
   forall p,
     lookupFactory (kernelFactories (initDrudeReferenceKernels' p)) name
     = Some ReferenceDrudeKernelFactory) /\
  (name <> CalcDrudeForceKernel_Name ->
   name <> IntegrateDrudeLangevinStepKernel_Name ->
   createKernelImpl' name platform context
   = Throws (mkOpenMMException
               ("Tried to create kernel with illegal kernel name '"
                  ++ name ++ "'"))).
Proof.
  unfold createKernelImpl.
  destruct (String.eqb_spec name CalcDrudeForceKernel_Name) as [E1|D1];
    [|destruct (String.eqb_spec name IntegrateDrudeLangevinStepKernel_Name)
        as [E2|D2]].
  - repeat split; try congruence.
    + eexists. split; reflexivity.
    + intro p. apply initDrudeReferenceKernels_registers. left. exact E1.
  - repeat split; try congruence.
    + eexists. split; reflexivity.
    + intro p. apply initDrudeReferenceKernels_registers. right. exact E2.
  - split; [congruence|]. split; [congruence|].
    split; [intros [A|A]; congruence|]. reflexivity.
Qed.

(** The entries of a table under other names than the two of this
    factory. *)
Lemma otherFactories_filter l name :
  name = CalcDrudeForceKernel_Name \/
  name = IntegrateDrudeLangevinStepKernel_Name ->
  otherFactories' (filter (fun e => negb (String.eqb (fst e) name)) l)
  = otherFactories' l.
Proof.
  intro H. unfold otherFactories.
  induction l as [|[n f] l IH]; [reflexivity|].
  cbn [filter fst].
  destruct (String.eqb_spec n name) as [E|D]; cbn [negb].
  - rewrite IH.
    destruct H as [H|H]; rewrite <- H, <- E, String.eqb_refl; cbn [negb andb];
      [reflexivity | rewrite andb_false_r; reflexivity].
  - cbn [filter fst]. rewrite IH. reflexivity.
Qed.

Lemma otherFactories_register platform name f :
  name = CalcDrudeForceKernel_Name \/
  name = IntegrateDrudeLangevinStepKernel_Name ->
  otherFactories' (kernelFactories (registerKernelFactory platform name f))
  = otherFactories' (kernelFactories platform).
Proof.
  intro H. rewrite <- (otherFactories_filter (kernelFactories platform) name H).
  unfold registerKernelFactory. cbn [kernelFactories].
  unfold otherFactories. cbn [filter fst].
  destruct H as [-> | ->]; rewrite String.eqb_refl; cbn [negb andb];
    [reflexivity | rewrite andb_false_r; reflexivity].
Qed.

(** X18.  [initDrudeReferenceKernels] keeps the name of the platform and
    registers the factory for no other name than the two that
    [createKernelImpl] accepts: the entries of the table under every
    other name are those the platform had, the same factories in the
    same order, and looking up such a name finds the factory it found
    before; so a name whose registration the initialisation has changed
    is a name for which [createKernelImpl] returns a kernel. *)
Theorem initDrudeReferenceKernels_frame (platform : Platform)
        (name : string) :
  platformName (initDrudeReferenceKernels' platform) = platformName platform /\
  otherFactories' (kernelFactories (initDrudeReferenceKernels' platform))
  = otherFactories' (kernelFactories platform) /\
  (name <> CalcDrudeForceKernel_Name ->
   name <> IntegrateDrudeLangevinStepKernel_Name ->
   lookupFactory (kernelFactories (initDrudeReferenceKernels' platform)) name
   = lookupFactory (kernelFactories platform) name) /\
  (lookupFactory (kernelFactories (initDrudeReferenceKernels' platform)) name
   <> lookupFactory (kernelFactories platform) name ->
   forall p (context : ContextImpl PlatformData),
   exists k, createKernelImpl' name p context = Returns k /\
             getName PlatformData k = name).
Proof.
  assert (O : otherFactories'
                (kernelFactories (initDrudeReferenceKernels' platform))
              = otherFactories' (kernelFactories platform)).
  { unfold initDrudeReferenceKernels. cbv zeta.
    rewrite otherFactories_register by (right; reflexivity).
    apply otherFactories_register. left; reflexivity. }
  assert (F : name <> CalcDrudeForceKernel_Name ->
              name <> IntegrateDrudeLangevinStepKernel_Name ->
              lookupFactory
                (kernelFactories (initDrudeReferenceKernels' platform)) name
              = lookupFactory (kernelFactories platform) name).
  { intros D1 D2. unfold initDrudeReferenceKernels, registerKernelFactory.
    cbn [kernelFactories lookupFactory].
    destruct (String.eqb_spec IntegrateDrudeLangevinStepKernel_Name name)
      as [E|_]; [congruence|].
    rewrite lookupFactory_filter by exact D2.
    cbn [lookupFactory].
    destruct (String.eqb_spec CalcDrudeForceKernel_Name name)
      as [E|_]; [congruence|].
    apply lookupFactory_filter. exact D1. }
  split; [reflexivity|]. split; [exact O|]. split; [exact F|].
  intros C p context. unfold createKernelImpl.
  destruct (String.eqb_spec name CalcDrudeForceKernel_Name) as [E1|D1];
    [eexists; split; reflexivity|].
  destruct (String.eqb_spec name IntegrateDrudeLangevinStepKernel_Name)
    as [E2|D2]; [eexists; split; reflexivity|].
  exfalso. exact (C (F D1 D2)).
Qed.

End DrudeProperties.

(* ------------------------------------------------------------------ *)
(** ** Properties of the default parameters *)

Section DefaultParametersProperties.

Variables Pressure SurfaceTension : string.
Variables getDefaultPressure getDefaultSurfaceTension : Owner -> Qc.

Local Abbreviation getDefaultParameters' :=
  (getDefaultParameters Pressure SurfaceTension
                        getDefaultPressure getDefaultSurfaceTension).

(** What is set is what is found, and setting a name leaves the others
    alone. *)
Lemma findParameter_set m name value name' :
  findParameter (setParameter m name value) name'
  = if String.eqb name name' then Some value else findParameter m name'.
Proof.
  unfold setParameter. cbn [findParameter].
  destruct (String.eqb_spec name name') as [E|D]; [reflexivity|].
  induction m as [|[n v] m IH]; [reflexivity|].
  cbn [filter fst findParameter].
  destruct (String.eqb_spec n name) as [->|D']; cbn [negb].
  - destruct (String.eqb_spec name name'); [congruence|exact IH].
  - cbn [findParameter]. rewrite IH. reflexivity.
Qed.

(** X17.  The default parameters of the barostat give the owner's
    default surface tension under the name [SurfaceTension()], its
    default pressure under the name [Pressure()] when the two names
    differ, and nothing under any other name; there are two of them
    when the names differ, and only the surface tension if the names
    were the same. *)
Theorem getDefaultParameters_spec (owner : Owner) :
  findParameter (getDefaultParameters' owner) SurfaceTension
  = Some (getDefaultSurfaceTension owner) /\
  (Pressure <> SurfaceTension ->
   findParameter (getDefaultParameters' owner) Pressure
   = Some (getDefaultPressure owner) /\
   List.length (getDefaultParameters' owner) = 2%nat) /\
  (Pressure = SurfaceTension ->
   List.length (getDefaultParameters' owner) = 1%nat) /\
  (forall name, name <> Pressure -> name <> SurfaceTension ->
                findParameter (getDefaultParameters' owner) name = None).
Proof.
  unfold getDefaultParameters. cbv zeta.
  split; [|split; [|split]].
  - rewrite findParameter_set, String.eqb_refl. reflexivity.
  - intro D. split.
    + rewrite !findParameter_set, String.eqb_refl.
      destruct (String.eqb_spec SurfaceTension Pressure); [congruence|].
      reflexivity.
    + unfold setParameter. cbn [filter fst].
      destruct (String.eqb_spec Pressure SurfaceTension); [congruence|].
      reflexivity.
  - intro E. unfold setParameter. cbn [filter fst].
    destruct (String.eqb_spec Pressure SurfaceTension); [|congruence].
    reflexivity.
  - intros name D1 D2. rewrite !findParameter_set.
    destruct (String.eqb_spec SurfaceTension name); [congruence|].
    destruct (String.eqb_spec Pressure name); [congruence|].
    reflexivity.
Qed.

End DefaultParametersProperties.

(* ------------------------------------------------------------------ *)
(** ** The properties on examples *)

(** A simulation on the unit box whose energy rises at each move, with
    the generator of [thirteen_trials]. *)
Local Abbreviation gen13 := (list_gen thirteen_trials 0).
Local Abbreviation st13 := (fst (initialize gen13 7 owner_free unitContext)).
Local Abbreviation ctx13 := (snd (initialize gen13 7 owner_free unitContext)).
Local Abbreviation trial13 :=
  (trial sqrt_approx exp_approx log_approx energy_rising owner_free).
Local Abbreviation update13 :=
  (updateContextState sqrt_approx exp_approx log_approx energy_rising
                      owner_free).
Local Abbreviation run13 :=
  (run sqrt_approx exp_approx log_approx energy_rising owner_free).

(** C1 on the first trial of that simulation, which has [w = 1] and is
    accepted on the variate 0. *)
Lemma acceptance_rule_witness :
  exists t,
    trial13 5%nat st13 ctx13 = Some t /\
    t_w t = 1 /\
    t_rejected t = false /\
    (let u := fst (genrand_real2 (t_rng t)) in
     t_w t = weight log_approx owner_free (energy_rising ctx13)
                    (energy_rising (applyProposal ctx13 (t_proposal t)))
                    (paramPressure ctx13 * (AVOGADRO * dbl 1e-25))
                    (paramSurfaceTension ctx13 * (AVOGADRO * dbl 1e-25))
                    (numMolecules ctx13) (boxVolume (boxVectors ctx13))
                    (t_proposal t) /\
     (t_w t <= 0 ->
      t_rejected t = false /\ random (t_state t) = t_rng t) /\
     (0 < t_w t ->
      (t_rejected t = false <->
       u <= boltzmannFactor exp_approx owner_free (t_w t))) /\
     (kT owner_free <> 0 ->
      boltzmannFactor exp_approx owner_free (t_w t)
      = exp_approx (- t_w t / kT owner_free)) /\
     (kT owner_free = 0 ->
      boltzmannFactor exp_approx owner_free (t_w t) = 0) /\
     (t_rejected t = false <->
      get (numAccepted (t_state t)) (t_axis t)
      = (get (numAccepted st13) (t_axis t) + 1)%Z)).
Proof.
  eexists. split; [reflexivity|].
  split; [apply Qc_is_canon; vm_compute; reflexivity|].
  split; [vm_compute; reflexivity|].
  apply (acceptance_rule sqrt_approx exp_approx log_approx energy_rising
           owner_free 5%nat st13 ctx13).
  reflexivity.
Defined.



(** A simulation whose first trial is rejected. *)
Local Abbreviation genR := (list_gen reject_move 0).
Local Abbreviation stR := (fst (initialize genR 7 owner_free unitContext)).
Local Abbreviation ctxR := (snd (initialize genR 7 owner_free unitContext)).

(** C2 on that trial. *)
Lemma rejection_restores_witness :
  exists t,
    runsTrial owner_free stR = true /\
    trial13 5%nat (with_step stR 0) ctxR = Some t /\
    t_rejected t = true /\
    (let p := t_proposal t in
     let s := lengthScale p in
     update13 5%nat stR ctxR
     = Some (tune (t_axis t) (newVolume p) (t_state t), t_context t) /\
     t_context t
     = callKernel
         (callKernel ctxR (KScaleCoordinates (el0 s) (el1 s) (el2 s)))
         KRestoreCoordinates /\
     boxVectors (t_context t) = boxVectors ctxR /\
     t_volume t = newVolume p /\
     newVolume p = boxVolume (boxVectors ctxR) + deltaVolume p /\
     numAccepted (t_state t) = numAccepted stR).
Proof.
  eexists. split; [reflexivity|]. split; [reflexivity|].
  split; [vm_compute; reflexivity|].
  apply (rejection_restores sqrt_approx exp_approx log_approx energy_rising
           owner_free 5%nat stR ctxR);
    [reflexivity | reflexivity | vm_compute; reflexivity].
Defined.


(** The simulation of [shrink_script] whose last trial takes half the
    largest step down (variate 1/4) and is accepted (test variate 0). *)
Local Abbreviation genH := (shrink_script (dbl 0.25) 0).
Local Abbreviation stH := (fst (initialize genH 7 owner_fixed tallContext)).
Local Abbreviation ctxH := (snd (initialize genH 7 owner_fixed tallContext)).
Local Abbreviation updateH :=
  (updateContextState sqrt_approx exp_approx log_approx energy_flat
                      owner_fixed).
Local Abbreviation runH :=
  (run sqrt_approx exp_approx log_approx energy_flat owner_fixed).


Lemma sqrt_approx_positive (x : Qc) : 0 < x -> 0 < sqrt_approx x.
Proof.
  intro H. unfold sqrt_approx. qc2q.
  setoid_replace (/ 2)%Q with (1 # 2)%Q by reflexivity. lra.
Qed.

Lemma constant_gen_unit (seed : Z) (n : nat) :
  0 <= constant_gen (dbl 0.25) seed n /\ constant_gen (dbl 0.25) seed n < 1.
Proof. split; [discriminate|reflexivity]. Qed.

(** A simulation at constant volume, on a flat energy. *)
Local Abbreviation genC := (constant_gen (dbl 0.25)).
Local Abbreviation stC :=
  (fst (initialize genC 7 owner_constant_volume unitContext)).
Local Abbreviation ctxC :=
  (snd (initialize genC 7 owner_constant_volume unitContext)).
Local Abbreviation trialC :=
  (trial sqrt_approx exp_approx log_approx energy_flat owner_constant_volume).
Local Abbreviation updateC :=
  (updateContextState sqrt_approx exp_approx log_approx energy_flat
                      owner_constant_volume).
Local Abbreviation reachableC :=
  (reachable sqrt_approx exp_approx log_approx energy_flat genC 7
             owner_constant_volume).


(** A barostat of frequency 0, after [initialize]. *)
Local Abbreviation stO := (fst (initialize genC 7 owner_off unitContext)).
Local Abbreviation ctxO := (snd (initialize genC 7 owner_off unitContext)).
Local Abbreviation updateO :=
  (updateContextState sqrt_approx exp_approx log_approx energy_flat owner_off).

(** C6, as the code has it, on that barostat. *)
Lemma frequency_zero_witness :
  getFrequency owner_off = 0%Z /\
  updateO 5%nat stO ctxO = Some (with_step stO (step stO + 1), ctxO) /\
  forall n, exists st',
    run sqrt_approx exp_approx log_approx energy_flat owner_off n 5%nat
        stO ctxO = Some (st', ctxO) /\
    step st' = (step stO + Z.of_nat n)%Z /\
    volumeScale st' = volumeScale stO /\
    numAttempted st' = numAttempted stO /\
    numAccepted st' = numAccepted stO /\
    random st' = random stO.
Proof.
  split; [reflexivity|].
  apply (frequency_zero sqrt_approx exp_approx log_approx energy_flat
           owner_off 5%nat stO ctxO).
  reflexivity.
Defined.

(** C6 as stated fails: with a frequency of 0 a call moves the step
    counter from 0 to 1. *)
Lemma frequency_zero_step_counter :
  exists st' ctx',
    getFrequency owner_off = 0%Z /\
    updateO 5%nat stO ctxO = Some (st', ctx') /\
    step stO = 0%Z /\ step st' = 1%Z.
Proof. do 2 eexists. repeat split. Qed.

(** The simulation of [shrink_script] whose last trial takes the largest
    step down (variate 0) and is tested on the variate 1/2. *)
Local Abbreviation genZ := (shrink_script 0 (dbl 0.5)).
Local Abbreviation stZ := (fst (initialize genZ 7 owner_fixed tallContext)).
Local Abbreviation ctxZ := (snd (initialize genZ 7 owner_fixed tallContext)).
Local Abbreviation reachableZ :=
  (reachable sqrt_approx exp_approx log_approx energy_flat genZ 7 owner_fixed).





(** C10 after one call of a barostat under [XYIsotropic]. *)
Lemma isotropic_axis1_untouched_witness :
  exists st ctx,
    getXYMode owner_constant_volume = XYIsotropic /\
    updateC 5%nat stC ctxC = Some (st, ctx) /\
    get (numAttempted st) Axis1 = 0%Z /\
    get (numAccepted st) Axis1 = 0%Z /\
    get (volumeScale st) Axis1
    = dbl 0.01 * boxVolume (boxVectors unitContext) /\
    forall fuel t, trialC fuel (with_step st 0) ctx = Some t ->
                   t_axis t <> Axis1.
Proof.
  do 2 eexists. split; [reflexivity|]. split; [reflexivity|].
  eapply (isotropic_axis1_untouched sqrt_approx exp_approx log_approx
            energy_flat genC 7 owner_constant_volume unitContext);
    [reflexivity|].
  apply (reach_update sqrt_approx exp_approx log_approx energy_flat genC 7
           owner_constant_volume any_call unitContext stC ctxC 5%nat);
    [apply reach_initialize | intros; exact I | reflexivity].
Defined.

(** C9 on the names of DrudeKernels.h: a registered name, and the name
    of a kernel that this factory does not make. *)
Lemma createKernelImpl_witness :
  createKernelImpl "CalcDrudeForce" "IntegrateDrudeLangevinStep" unit
                   "CalcDrudeForce" (mkPlatform "Reference" [])
                   (mkContextImpl unit tt)
  = Returns (ReferenceCalcDrudeForceKernel unit "CalcDrudeForce"
               (mkPlatform "Reference" [])) /\
  createKernelImpl "CalcDrudeForce" "IntegrateDrudeLangevinStep" unit
                   "ApplyMonteCarloBarostat" (mkPlatform "Reference" [])
                   (mkContextImpl unit tt)
  = Throws (mkOpenMMException
              ("Tried to create kernel with illegal kernel name '"
                 ++ "ApplyMonteCarloBarostat" ++ "'")).
Proof.
  split.
  - apply (createKernelImpl_spec "CalcDrudeForce"
             "IntegrateDrudeLangevinStep" unit "CalcDrudeForce").
    reflexivity.
  - apply (createKernelImpl_spec "CalcDrudeForce"
             "IntegrateDrudeLangevinStep" unit "ApplyMonteCarloBarostat");
      discriminate.
Defined.

(* ------------------------------------------------------------------ *)
(** ** The further properties on examples *)

(** A barostat that runs a trial at every third call, after
    [initialize]. *)
Local Abbreviation st3 :=
  (fst (initialize genC 7 owner_every_third unitContext)).
Local Abbreviation ctx3 :=
  (snd (initialize genC 7 owner_every_third unitContext)).
Local Abbreviation update3 :=
  (updateContextState sqrt_approx exp_approx log_approx energy_flat
                      owner_every_third).
Local Abbreviation run3 :=
  (run sqrt_approx exp_approx log_approx energy_flat owner_every_third).

(** X1 on that barostat: two calls count, the third runs a trial. *)
Lemma trial_every_frequency_calls_witness :
  (0 < getFrequency owner_every_third)%Z /\
  step st3 = 0%Z /\
  (forall n, (Z.of_nat n < getFrequency owner_every_third)%Z ->
     run3 n 5%nat st3 ctx3 = Some (with_step st3 (Z.of_nat n), ctx3) /\
     (runsTrial owner_every_third (with_step st3 (Z.of_nat n)) = true <->
      (Z.of_nat n + 1 = getFrequency owner_every_third)%Z)) /\
  (forall s c s' c',
     runsTrial owner_every_third s = true ->
     update3 5%nat s c = Some (s', c') -> step s' = 0%Z).
Proof.
  split; [reflexivity|]. split; [reflexivity|].
  apply (trial_every_frequency_calls sqrt_approx exp_approx log_approx
           energy_flat owner_every_third 5%nat st3 ctx3);
    reflexivity.
Defined.


(** X3 on the first call of the simulation of [thirteen_trials], whose
    trial is accepted. *)
Lemma call_frame_witness :
  exists st ctx,
    update13 5%nat st13 ctx13 = Some (st, ctx) /\
    paramPressure ctx = paramPressure ctx13 /\
    paramSurfaceTension ctx = paramSurfaceTension ctx13 /\
    numMolecules ctx = numMolecules ctx13 /\
    ((runsTrial owner_free st13 = false /\ ctx = ctx13) \/
     (exists s : Arr3 Qc,
        runsTrial owner_free st13 = true /\
        kernelCalls ctx
        = KScaleCoordinates (el0 s) (el1 s) (el2 s) :: kernelCalls ctx13 /\
        boxVectors ctx = scaledBox (boxVectors ctx13) s) \/
     (exists s : Arr3 Qc,
        runsTrial owner_free st13 = true /\
        kernelCalls ctx
        = KRestoreCoordinates
            :: KScaleCoordinates (el0 s) (el1 s) (el2 s)
            :: kernelCalls ctx13 /\
        boxVectors ctx = boxVectors ctx13)).
Proof.
  destruct (update13 5%nat st13 ctx13) as [[st ctx]|] eqn:U;
    [|vm_compute in U; discriminate].
  exists st, ctx. split; [reflexivity|].
  exact (call_frame sqrt_approx exp_approx log_approx energy_rising
           owner_free 5%nat st13 ctx13 st ctx U).
Defined.

(** X4 on the same call. *)
Lemma generator_only_advances_witness :
  exists st ctx,
    update13 5%nat st13 ctx13 = Some (st, ctx) /\
    draws (random st) = draws (random st13) /\
    (pos (random st13) <= pos (random st))%nat /\
    (runsTrial owner_free st13 = false -> random st = random st13) /\
    (runsTrial owner_free st13 = true ->
     (pos (random st13) + 2 <= pos (random st))%nat).
Proof.
  destruct (update13 5%nat st13 ctx13) as [[st ctx]|] eqn:U;
    [|vm_compute in U; discriminate].
  exists st, ctx. split; [reflexivity|].
  exact (generator_only_advances sqrt_approx exp_approx log_approx
           energy_rising owner_free 5%nat st13 ctx13 st ctx U).
Defined.

(** X5 on the variates 0.9, 0.8 and 0.5 with the normal axis fixed: two
    are skipped, the third gives axis 1. *)
Lemma chooseAxis_first_valid_witness :
  let r := mkRng (list_gen [dbl 0.9; dbl 0.8; dbl 0.5] 0 0) 0 in
  chooseAxis owner_fixed 5 r = Some (Axis1, mkRng (draws r) 3) /\
  (exists k,
     (k < 5)%nat /\
     mkRng (draws r) 3 = mkRng (draws r) (pos r + k + 1) /\
     (forall j, (j < k)%nat ->
                dbl 2.0 <= draws r (pos r + j) * dbl 3.0 /\
                getZMode owner_fixed <> ZFree) /\
     let rnd := draws r (pos r + k) * dbl 3.0 in
     (rnd < dbl 1.0 -> Axis1 = Axis0) /\
     (dbl 1.0 <= rnd -> rnd < dbl 2.0 ->
      Axis1 = if XYMode_eqb (getXYMode owner_fixed) XYIsotropic
              then Axis0 else Axis1) /\
     (dbl 2.0 <= rnd -> Axis1 = Axis2 /\ getZMode owner_fixed = ZFree)) /\
  (forall fuel', (5 <= fuel')%nat ->
                 chooseAxis owner_fixed fuel' r
                 = Some (Axis1, mkRng (draws r) 3)).
Proof.
  intro r. split; [vm_compute; reflexivity|].
  apply (chooseAxis_first_valid owner_fixed 5 r Axis1 (mkRng (draws r) 3)).
  vm_compute. reflexivity.
Defined.

(** X6 on the box of edges 2, 3 and 5, with an amplitude of 0.3 and the
    variate 0.25. *)
Lemma deltaVolume_within_amplitude_witness :
  let p := propose sqrt_approx owner_free slabBox (dbl 0.3) Axis0
                   (dbl 0.25) in
  0 <= dbl 0.3 /\ 0 <= dbl 0.25 /\ dbl 0.25 < 1 /\
  - dbl 0.3 <= deltaVolume p /\
  deltaVolume p <= dbl 0.3 /\
  newVolume p = boxVolume slabBox + deltaVolume p.
Proof.
  intro p. split; [discriminate|]. split; [discriminate|].
  split; [reflexivity|].
  apply (deltaVolume_within_amplitude sqrt_approx owner_free slabBox
           (dbl 0.3) Axis0 (dbl 0.25));
    [discriminate | discriminate | reflexivity].
Defined.

(** X8 on the same move. *)
Lemma installed_volume_is_newVolume_witness :
  let p := propose sqrt_approx owner_free slabBox (dbl 0.3) Axis0
                   (dbl 0.25) in
  getZMode owner_free <> ConstantVolume /\
  boxVolume slabBox <> 0 /\
  boxVolume (scaledBox slabBox (lengthScale p)) = newVolume p.
Proof.
  intro p.
  assert (V : boxVolume slabBox <> 0)
    by (apply not_eq_sym, Qclt_not_eq; reflexivity).
  split; [discriminate|]. split; [exact V|].
  apply (installed_volume_is_newVolume sqrt_approx owner_free slabBox
           (dbl 0.3) Axis0 (dbl 0.25));
    [discriminate | left; reflexivity | exact V].
Defined.

(** A barostat with the lateral axes coupled, on the box of edges 2, 3
    and 5. *)
Local Abbreviation stI :=
  (fst (initialize genC 7 owner_isotropic_free slabContext)).
Local Abbreviation ctxI :=
  (snd (initialize genC 7 owner_isotropic_free slabContext)).
Local Abbreviation updateI :=
  (updateContextState sqrt_approx exp_approx log_approx energy_flat
                      owner_isotropic_free).

(** X10 after one call of that barostat. *)
Lemma isotropic_keeps_lateral_proportion_witness :
  exists st ctx,
    getXYMode owner_isotropic_free = XYIsotropic /\
    updateI 5%nat stI ctxI = Some (st, ctx) /\
    el0 (el0 (boxVectors ctx)) * el1 (el1 (boxVectors slabContext))
    = el0 (el0 (boxVectors slabContext)) * el1 (el1 (boxVectors ctx)) /\
    forall fuel st' ctx',
      updateI fuel st ctx = Some (st', ctx') ->
      boxVectors ctx' = boxVectors ctx \/
      exists scale,
        el0 (el0 (boxVectors ctx')) = el0 (el0 (boxVectors ctx)) * scale /\
        el1 (el1 (boxVectors ctx')) = el1 (el1 (boxVectors ctx)) * scale.
Proof.
  destruct (updateI 5%nat stI ctxI) as [[st ctx]|] eqn:U;
    [|vm_compute in U; discriminate].
  exists st, ctx. split; [reflexivity|]. split; [reflexivity|].
  apply (isotropic_keeps_lateral_proportion sqrt_approx exp_approx
           log_approx energy_flat genC 7 owner_isotropic_free slabContext
           st ctx);
    [reflexivity|].
  apply (reach_update sqrt_approx exp_approx log_approx energy_flat genC 7
           owner_isotropic_free any_call slabContext stI ctxI 5%nat);
    [apply reach_initialize | intros; exact I | exact U].
Defined.

(** A barostat with the normal axis fixed, on the same box. *)
Local Abbreviation stF :=
  (fst (initialize genC 7 owner_fixed slabContext)).
Local Abbreviation ctxF :=
  (snd (initialize genC 7 owner_fixed slabContext)).
Local Abbreviation updateF :=
  (updateContextState sqrt_approx exp_approx log_approx energy_flat
                      owner_fixed).

(** X11 after one call of that barostat. *)
Lemma nonfree_normal_axis_untouched_witness :
  exists st ctx,
    getZMode owner_fixed <> ZFree /\
    updateF 5%nat stF ctxF = Some (st, ctx) /\
    get (numAttempted st) Axis2 = 0%Z /\
    get (numAccepted st) Axis2 = 0%Z /\
    get (volumeScale st) Axis2
    = dbl 0.01 * boxVolume (boxVectors slabContext) /\
    (getZMode owner_fixed = ZFixed ->
     get (boxVectors ctx) Axis2 = get (boxVectors slabContext) Axis2).
Proof.
  destruct (updateF 5%nat stF ctxF) as [[st ctx]|] eqn:U;
    [|vm_compute in U; discriminate].
  exists st, ctx. split; [discriminate|]. split; [reflexivity|].
  apply (nonfree_normal_axis_untouched sqrt_approx exp_approx log_approx
           energy_flat genC 7 owner_fixed slabContext st ctx);
    [discriminate|].
  apply (reach_update sqrt_approx exp_approx log_approx energy_flat genC 7
           owner_fixed any_call slabContext stF ctxF 5%nat);
    [apply reach_initialize | intros; exact I | exact U].
Defined.

(** The state that the thirteen calls of [thirteen_trials] reach. *)
Lemma thirteen_calls_reachable st ctx :
  run13 13%nat 5%nat st13 ctx13 = Some (st, ctx) ->
  reachable sqrt_approx exp_approx log_approx energy_rising gen13 7
            owner_free any_call unitContext st ctx.
Proof.
  assert (G : forall n s c s' c',
             reachable sqrt_approx exp_approx log_approx energy_rising
                       gen13 7 owner_free any_call unitContext s c ->
             run13 n 5%nat s c = Some (s', c') ->
             reachable sqrt_approx exp_approx log_approx energy_rising
                       gen13 7 owner_free any_call unitContext s' c').
  { induction n as [|n IH]; intros s c s' c' R H; cbn [run] in H.
    - injection H as <- <-. exact R.
    - destruct (update13 5%nat s c) as [[s1 c1]|] eqn:U; [|discriminate].
      apply (IH s1 c1); [|exact H].
      apply (reach_update sqrt_approx exp_approx log_approx energy_rising
               gen13 7 owner_free any_call unitContext s c 5%nat);
        [exact R | intros; exact I | exact U]. }
  apply G. apply reach_initialize.
Qed.


(** X13 on the first call of that simulation. *)
Lemma one_axis_per_call_witness :
  exists st ctx,
    update13 5%nat st13 ctx13 = Some (st, ctx) /\
    exists axis,
      (forall b, b <> axis ->
         get (volumeScale st) b = get (volumeScale st13) b /\
         get (numAttempted st) b = get (numAttempted st13) b /\
         get (numAccepted st) b = get (numAccepted st13) b) /\
      (runsTrial owner_free st13 = true ->
       get (numAttempted st) axis = (get (numAttempted st13) axis + 1)%Z \/
       (get (numAttempted st) axis = 0%Z /\
        get (numAccepted st) axis = 0%Z)).
Proof.
  destruct (update13 5%nat st13 ctx13) as [[st ctx]|] eqn:U;
    [|vm_compute in U; discriminate].
  exists st, ctx. split; [reflexivity|].
  exact (one_axis_per_call sqrt_approx exp_approx log_approx energy_rising
           owner_free 5%nat st13 ctx13 st ctx U).
Defined.

(** X14 on the same call. *)
Lemma amplitude_growth_bounded_witness :
  exists st ctx,
    update13 5%nat st13 ctx13 = Some (st, ctx) /\
    0 <= get (volumeScale st13) Axis0 /\
    get (volumeScale st) Axis0 <= get (volumeScale st13) Axis0 * dbl 1.1.
Proof.
  destruct (update13 5%nat st13 ctx13) as [[st ctx]|] eqn:U;
    [|vm_compute in U; discriminate].
  exists st, ctx. split; [reflexivity|].
  assert (P : 0 <= get (volumeScale st13) Axis0) by discriminate.
  split; [exact P|].
  exact (amplitude_growth_bounded sqrt_approx exp_approx log_approx
           energy_rising owner_free 5%nat st13 ctx13 st ctx U Axis0 P).
Defined.

(** X15 after one call of the simulation at constant volume. *)
Lemma constant_volume_run_witness :
  exists st ctx,
    updateC 5%nat stC ctxC = Some (st, ctx) /\
    boxVolume (boxVectors ctx) = boxVolume (boxVectors unitContext) /\
    forall i, 0 < get (volumeScale st) i /\
              get (volumeScale st) i
              <= boxVolume (boxVectors unitContext) * dbl 0.3.
Proof.
  destruct (updateC 5%nat stC ctxC) as [[st ctx]|] eqn:U;
    [|vm_compute in U; discriminate].
  exists st, ctx. split; [reflexivity|].
  apply (constant_volume_run sqrt_approx exp_approx log_approx energy_flat
           genC 7 owner_constant_volume unitContext st ctx).
  - reflexivity.
  - exact sqrt_approx_positive.
  - exact constant_gen_unit.
  - reflexivity.
  - apply (reach_update sqrt_approx exp_approx log_approx energy_flat genC 7
             owner_constant_volume any_call unitContext stC ctxC 5%nat);
      [apply reach_initialize | intros; exact I | exact U].
Defined.

(** X16 on a barostat whose seed is 0, [osrngseed()] returning 7. *)
Lemma one_seeded_sequence_witness :
  exists seed,
    draws (random (fst (initialize genC 7 owner_unseeded unitContext)))
    = genC seed /\
    (getRandomNumberSeed owner_unseeded <> 0%Z ->
     seed = getRandomNumberSeed owner_unseeded) /\
    (getRandomNumberSeed owner_unseeded = 0%Z -> seed = 7%Z) /\
    (seed = 0%Z -> 7%Z = 0%Z).
Proof.
  apply (one_seeded_sequence sqrt_approx exp_approx log_approx energy_flat
           genC 7 owner_unseeded unitContext _
           (snd (initialize genC 7 owner_unseeded unitContext))).
  apply reach_initialize.
Defined.

(** X7 on the move of X6, and on a move of axis 2. *)
Lemma deltaArea_is_area_change_witness :
  let p := propose sqrt_approx owner_free slabBox (dbl 0.3) Axis0
                   (dbl 0.25) in
  let q := propose sqrt_approx owner_free slabBox (dbl 0.3) Axis2
                   (dbl 0.25) in
  deltaArea p
  = lateralArea (scaledBox slabBox (lengthScale p)) - lateralArea slabBox /\
  deltaArea q = 0.
Proof.
  intros p q. split.
  - apply (deltaArea_is_area_change sqrt_approx owner_free slabBox
             (dbl 0.3) Axis0 (dbl 0.25)).
  - apply (deltaArea_is_area_change sqrt_approx owner_free slabBox
             (dbl 0.3) Axis2 (dbl 0.25)).
    reflexivity.
Defined.

(** X9 on the same move: the second and the third box vectors are
    those of the box. *)
Lemma move_scales_its_axis_witness :
  let p := propose sqrt_approx owner_free slabBox (dbl 0.3) Axis0
                   (dbl 0.25) in
  get (scaledBox slabBox (lengthScale p)) Axis1 = get slabBox Axis1 /\
  get (scaledBox slabBox (lengthScale p)) Axis2 = get slabBox Axis2.
Proof.
  intro p.
  split;
    apply (proj1 (move_scales_its_axis sqrt_approx owner_free slabBox
                    (dbl 0.3) Axis0 (dbl 0.25)));
    try reflexivity; discriminate.
Defined.

(** X17 with the names of MonteCarloMembraneBarostat.h and defaults of
    1 and 2. *)
Lemma getDefaultParameters_witness :
  let parameters :=
    getDefaultParameters "MonteCarloPressure" "MonteCarloSurfaceTension"
                         (fun _ => 1) (fun _ => dbl 2) owner_free in
  findParameter parameters "MonteCarloSurfaceTension" = Some (dbl 2) /\
  findParameter parameters "MonteCarloPressure" = Some 1 /\
  List.length parameters = 2%nat /\
  findParameter parameters "MonteCarloTemperature" = None.
Proof.
  intro parameters.
  pose proof (getDefaultParameters_spec "MonteCarloPressure"
                "MonteCarloSurfaceTension" (fun _ => 1) (fun _ => dbl 2)
                owner_free) as (T & P & _ & N).
  split; [exact T|].
  split; [apply P; discriminate|].
  split; [apply P; discriminate|].
  apply N; discriminate.
Defined.

(** X18 on a platform that holds another factory for another kernel,
    and an older factory for one of the two kernels of this one. *)
Lemma initDrudeReferenceKernels_frame_witness :
  let platform :=
    mkPlatform "Reference"
               [("CalcDrudeForce"%string, OtherKernelFactory 2);
                ("ApplyMonteCarloBarostat"%string, OtherKernelFactory 1)] in
  let platform' :=
    initDrudeReferenceKernels "CalcDrudeForce" "IntegrateDrudeLangevinStep"
                              platform in
  platformName platform' = "Reference"%string /\
  otherFactories "CalcDrudeForce" "IntegrateDrudeLangevinStep"
                 (kernelFactories platform')
  = [("ApplyMonteCarloBarostat"%string, OtherKernelFactory 1)] /\
  lookupFactory (kernelFactories platform') "ApplyMonteCarloBarostat"
  = Some (OtherKernelFactory 1) /\
  lookupFactory (kernelFactories platform') "CalcDrudeForce"
  = Some ReferenceDrudeKernelFactory /\
  exists k,
    createKernelImpl "CalcDrudeForce" "IntegrateDrudeLangevinStep" unit
                     "CalcDrudeForce" platform' (mkContextImpl unit tt)
    = Returns k /\
    getName unit k = "CalcDrudeForce"%string.
Proof.
  intros platform platform'.
  pose proof (initDrudeReferenceKernels_frame "CalcDrudeForce"
                "IntegrateDrudeLangevinStep" unit platform) as H.
  destruct (H "ApplyMonteCarloBarostat"%string) as (N & O & F & _).
  destruct (H "CalcDrudeForce"%string) as (_ & _ & _ & C).
  split; [exact N|].
  split; [unfold platform'; rewrite O; reflexivity|].
  split; [unfold platform'; rewrite F; [reflexivity|discriminate..]|].
  split; [reflexivity|].
  apply C. discriminate.
Defined.

(* ------------------------------------------------------------------ *)
(** ** The proposal of a move in binary64, on examples *)

Section Binary64Properties.

Import PrimFloat.
#[local] Set Warnings "-inexact-float".


(** The 99 accepted moves of [shrink_script] in doubles: [initialize]
    gives the box of edges 1, 100 and 1 the amplitude 1, and each move
    takes the second edge from [b] to [b-1] with no rounding left, down
    to the cubic box of edge 1; on that box the largest step down
    attempts the volume 0, and half of it the volume 1/2. *)
Lemma stepsDown_in_doubles :
  (0.01 * Binary64.boxVolume (Binary64.rectangularBox 1 100 1) = 1)%float /\
  Binary64.stepsDown owner_fixed 99 100%float = true /\
  Binary64.newVolume
    (Binary64.propose owner_fixed (Binary64.rectangularBox 1 1 1) 1%float
                      Axis0 0%float)
  = 0%float /\
  Binary64.boxVolume
    (Binary64.scaledBox (Binary64.rectangularBox 1 1 1)
       (Binary64.lengthScale
          (Binary64.propose owner_fixed (Binary64.rectangularBox 1 1 1)
                            1%float Axis0 0.25%float)))
  = 0.5%float.
Proof. repeat split; vm_compute; reflexivity. Qed.

End Binary64Properties.
